(** * python_docker_trial: EDA plotting helpers and the project-folder scaffold

    A shallow embedding of
    - [my_modules_data_visualization/my_module_data_visualization.py]
      ([eda_scatter_plot], [eda_violin_plot], [eda_bar_plot],
      [eda_heatmap_crosstab]) and
    - [my_modules_environment_setting/create_project_folders.py]
      ([setup_project_directory]).

    The plotting functions are thin drivers of pandas, seaborn and
    matplotlib.  Every call into one of these libraries is kept as an
    explicit event of a small free monad ([prog]); what the library answers
    is supplied by a [library], an arbitrary state machine, so that a
    statement quantified over all libraries speaks about every possible
    behaviour of the code outside this repository. *)

From stdpp Require Import base option list strings gmap sorting.
From Stdlib Require Import ZArith Lia Ascii.

Local Open Scope string_scope.
Local Open Scope Z_scope.

(** ** Python values *)

Module Py.

(** Builtin exceptions that the modelled code can raise or let through. *)
Inductive exn : Type :=
| ValueError (msg : string)
| KeyError (key : string)
| AttributeError (msg : string)
| OSError (path : string).   (* of an [os] call; [path] is its argument *)

(** A numeric argument.  Floating-point literals and products are carried
    symbolically (the literal as written in the source); they are handed
    to matplotlib unevaluated. *)
Inductive number : Type :=
| Int (z : Z)
| Float (literal : string)
| Mul (a b : number).

(** [bool(s)] for [s : Optional[str]]: [None] and [''] are falsy. *)
Definition truthy (s : option string) : bool :=
  match s with
  | None => false
  | Some s => negb (String.eqb s "")
  end.

(** [f'{s}'] for [s : Optional[str]]. *)
Definition fmt (s : option string) : string :=
  match s with
  | None => "None"
  | Some s => s
  end.

(** The message [msg] quotes the column name: [... 'col' ...]. *)
Definition names (msg col : string) : Prop :=
  ∃ pre post, msg = pre ++ "'" ++ col ++ "'" ++ post.

End Py.

(** ** Tabular data (pandas) *)

(** A cell of a column: a missing value ([None]/[NaN]), a label or a number. *)
Inductive cell : Type :=
| NA
| Str (s : string)
| Num (z : Z).

Global Instance cell_eq_dec : EqDecision cell.
Proof. solve_decision. Defined.

(** A column with its rows in order ([pd.Series]). *)
Definition Series : Type := list cell.

(** A [pd.DataFrame]: named columns in order.  Column names are taken to
    be distinct, as they are in a frame read from a file; of a repeated
    name [getitem] sees the first column. *)
Definition DataFrame : Type := list (string * Series).

(** [df.columns] *)
Definition columns (df : DataFrame) : list string := df.*1.

(** [col in df.columns] *)
Definition has_column (df : DataFrame) (col : string) : bool :=
  bool_decide (col ∈ columns df).

(** [df[col]], raising [KeyError] for an unknown name. *)
Fixpoint getitem (df : DataFrame) (col : string) : Py.exn + Series :=
  match df with
  | [] => inl (Py.KeyError col)
  | (name, s) :: df' => if String.eqb name col then inr s else getitem df' col
  end.

(** The result of [pd.crosstab]: row labels, column labels and one cell
    per pair, row by row.  [None] is an empty ([NaN]) cell. *)
Record CrossTab : Type := mkCrossTab {
  ct_index : list cell;
  ct_columns : list cell;
  ct_cells : list (list (option Z));
}.

(** The label map [variable_labels : Optional[dict]]. *)
Abbreviation LabelMap := (option (gmap string string)).

(** ** Objects handed out by matplotlib and seaborn

    They are opaque to this code; an object is identified by a number. *)
Definition Figure : Type := nat.
Definition Axes : Type := nat.
Definition Legend : Type := nat.
Definition Text : Type := nat.

Record JointGrid : Type := mkJointGrid {
  fig : Figure;
  ax_joint : Axes;
  ax_marg_x : Axes;
  ax_marg_y : Axes;
}.

Record Colorbar : Type := mkColorbar {
  cbar_id : nat;
  cbar_ax : Axes;
}.

(** ** Calls into the libraries

    One constructor per call site shape; the index is the type of the
    value the call returns.  Keyword arguments keep the source's names. *)
Inductive call : Type → Type :=
(* matplotlib.pyplot *)
| plt_figure : call Figure
| plt_setp (objs : list Text) (fontsize : Py.number) : call unit
| plt_tight_layout (rect : option (list Py.number)) : call unit
| plt_show : call unit
(* seaborn *)
| sns_jointplot (data : DataFrame) (x y : string) (hue : option string)
    (kind : string) (palette : option string) : call JointGrid
| sns_regplot (data : DataFrame) (x y : string) (ax : Axes) (scatter : bool)
    (color : string) (line_kws : list (string * Py.number)) : call Axes
| sns_violinplot (data : DataFrame) (x : option string) (y : string)
    (palette : option string) (inner : option string) : call Axes
| sns_barplot (data : DataFrame) (x y : string) (hue : option string)
    (palette : option string) (errorbar : option (string * Z)) : call Axes
| sns_heatmap (data : CrossTab) (cmap : option string) (annot : bool)
    (fmt : string) (linewidths : Py.number) (linecolor : string)
    (cbar_kws : list (string * string)) : call Axes
(* pandas *)
| pd_crosstab (index columns : Series) (values : option Series)
    (aggfunc : option string) : call CrossTab
(* methods and attributes of the returned objects *)
| fig_suptitle (f : Figure) (t : string) (y : Py.number)
    (fontsize : Py.number) : call unit
| ax_set_title (ax : Axes) (label : option string)
    (fontsize : Py.number) : call unit
| ax_set_xlabel (ax : Axes) (label : option string)
    (fontsize : Py.number) : call unit
| ax_set_ylabel (ax : Axes) (label : option string)
    (fontsize : Py.number) : call unit
| ax_tick_params (ax : Axes) (axis : option string)
    (labelsize : Py.number) : call unit
| ax_legend_ (ax : Axes) : call (option Legend)
| ax_get_legend (ax : Axes) : call (option Legend)
| legend_get_texts (l : Legend) : call (list Text)
| legend_get_title (l : Legend) : call (option Text)
| text_set_fontsize (t : Text) (fontsize : Py.number) : call unit
| ax_collections_0_colorbar (ax : Axes) : call Colorbar
| cbar_set_label (c : Colorbar) (label : string)
    (fontsize : Py.number) : call unit.

(** A call together with what came back. *)
Inductive event : Type :=
| Ev {R : Type} (c : call R) (r : Py.exn + R).

(** ** Programs over the library calls *)

Inductive prog (A : Type) : Type :=
| Ret (a : A)
| Raise (e : Py.exn)
| Vis {R : Type} (c : call R) (k : R → prog A).

Arguments Ret {A} a.
Arguments Raise {A} e.
Arguments Vis {A R} c k.

Fixpoint bind {A B : Type} (p : prog A) (f : A → prog B) : prog B :=
  match p with
  | Ret a => f a
  | Raise e => Raise e
  | Vis c k => Vis c (λ r, bind (k r) f)
  end.

Definition do {R : Type} (c : call R) : prog R := Vis c Ret.

Global Instance prog_ret : MRet prog := @Ret.
Global Instance prog_bind : MBind prog := λ A B f p, bind p f.

(** How a run ended. *)
Inductive outcome (A : Type) : Type :=
| Returned (a : A)
| Raised (e : Py.exn).

Arguments Returned {A} a.
Arguments Raised {A} e.

(** The world outside the repository: a state machine answering each call
    with a value or an exception.  An exception raised by a library
    propagates: none of the modelled functions has a [try]. *)
Record library (S : Type) : Type := mkLibrary {
  answer : ∀ R : Type, call R → S → (Py.exn + R) * S;
}.

Arguments answer {S} l {R} c s.

Fixpoint run {S A : Type} (L : library S) (p : prog A) (s : S)
  : list event * outcome A * S :=
  match p with
  | Ret a => ([], Returned a, s)
  | Raise e => ([], Raised e, s)
  | Vis c k =>
      match answer L c s with
      | (inl e, s') => ([Ev c (inl e)], Raised e, s')
      | (inr r, s') =>
          let '(tr, o, s'') := run L (k r) s' in (Ev c (inr r) :: tr, o, s'')
      end
  end.

(** An exception of a pure step, or its value. *)
Definition lift {A : Type} (r : Py.exn + A) : prog A :=
  match r with
  | inl e => Raise e
  | inr a => Ret a
  end.

(** ** my_module_data_visualization.py *)

(** *** Pieces that every plotting function repeats inline *)

(** [bool(variable_labels)]: [None] and the empty dict are falsy. *)
Definition dict_truthy (variable_labels : LabelMap) : bool :=
  match variable_labels with
  | None => false
  | Some d => negb (bool_decide (d = ∅))
  end.

(** [d.get(key, default)] *)
Definition dict_get (d : gmap string string) (key dflt : string) : string :=
  default dflt (d !! key).

(** [variable_labels.get(col, col) if variable_labels else col] *)
Definition label_of (variable_labels : LabelMap) (col : string) : string :=
  match variable_labels with
  | Some d => if dict_truthy variable_labels then dict_get d col col else col
  | None => col
  end.

(** [variable_labels.get(col, col) if variable_labels and col else col],
    the form used for [hue_feature] and [value_col]. *)
Definition label_of_optional (variable_labels : LabelMap) (col : option string)
  : option string :=
  match variable_labels, col with
  | Some d, Some c =>
      if dict_truthy variable_labels && Py.truthy col
      then Some (dict_get d c c) else col
  | _, _ => col
  end.

(** [f"指定された<what> '{col}' がDataFrameに存在しません。"] *)
Definition missing_column (what col : string) : string :=
  "指定された" ++ what ++ " '" ++ col ++ "' がDataFrameに存在しません。".

(** [for col in cols: if col not in df.columns: raise ValueError(...)] *)
Fixpoint check_columns (df : DataFrame) (what : string) (cols : list string)
  : prog unit :=
  match cols with
  | [] => Ret ()
  | col :: cols' =>
      if has_column df col then check_columns df what cols'
      else Raise (Py.ValueError (missing_column what col))
  end.

(** [if col and col not in df.columns: raise ValueError(...)] *)
Definition check_optional (df : DataFrame) (what : string) (col : option string)
  : prog unit :=
  match col with
  | Some c =>
      if Py.truthy col && negb (has_column df c)
      then Raise (Py.ValueError (missing_column what c))
      else Ret ()
  | None => Ret ()
  end.

(** [ax.get_legend().<attr>]: the attribute access fails on [None]. *)
Definition get_legend (ax : Axes) (attr : string) : prog Legend :=
  l ← do (ax_get_legend ax);
  match l with
  | Some l => Ret l
  | None =>
      Raise (Py.AttributeError
               ("'NoneType' object has no attribute '" ++ attr ++ "'"))
  end.

(** The legend block:
[[
    if ax.legend_:
        plt.setp(ax.get_legend().get_texts(), fontsize=tick_fontsize)
        if ax.get_legend().get_title():
            ax.get_legend().get_title().set_fontsize(label_fontsize * 0.9)
]] *)
Definition style_legend (ax : Axes) (label_fontsize tick_fontsize : Z)
  : prog unit :=
  legend_ ← do (ax_legend_ ax);
  if legend_ is Some _ then
    l ← get_legend ax "get_texts";
    texts ← do (legend_get_texts l);
    _ ← do (plt_setp texts (Py.Int tick_fontsize));
    l ← get_legend ax "get_title";
    t ← do (legend_get_title l);
    if t is Some _ then
      l ← get_legend ax "get_title";
      t ← do (legend_get_title l);
      match t with
      | Some t =>
          do (text_set_fontsize t
                (Py.Mul (Py.Int label_fontsize) (Py.Float "0.9")))
      | None =>
          Raise (Py.AttributeError
                   "'NoneType' object has no attribute 'set_fontsize'")
      end
    else Ret ()
  else Ret ().

(** *** eda_scatter_plot *)

Definition eda_scatter_plot (df : DataFrame) (x_col y_col : string)
    (hue_feature : option string) (kind : string) (palette : option string)
    (reg_line : bool) (title_fontsize label_fontsize tick_fontsize : Z)
    (variable_labels : LabelMap) : prog unit :=
  _ ← check_columns df "列" [x_col; y_col];
  _ ← check_optional df "hue列" hue_feature;
  let display_x_col := label_of variable_labels x_col in
  let display_y_col := label_of variable_labels y_col in
  let display_hue_feature := label_of_optional variable_labels hue_feature in
  g ← do (sns_jointplot df x_col y_col hue_feature kind palette);
  _ ← (if reg_line && negb (String.eqb kind "reg") then
         _ ← do (sns_regplot df x_col y_col (ax_joint g) false "red"
                   [("alpha", Py.Float "0.7"); ("lw", Py.Int 2)]);
         Ret ()
       else Ret ());
  _ ← do (fig_suptitle (fig g)
            ("Joint Plot of " ++ display_x_col ++ " vs " ++ display_y_col
               ++ " (Hue by " ++ Py.fmt display_hue_feature ++ ")")
            (Py.Float "1.02") (Py.Int title_fontsize));
  _ ← do (ax_set_xlabel (ax_joint g) (Some display_x_col) (Py.Int label_fontsize));
  _ ← do (ax_set_ylabel (ax_joint g) (Some display_y_col) (Py.Int label_fontsize));
  _ ← do (ax_tick_params (ax_joint g) (Some "x") (Py.Int tick_fontsize));
  _ ← do (ax_tick_params (ax_joint g) (Some "y") (Py.Int tick_fontsize));
  _ ← do (ax_tick_params (ax_marg_x g) (Some "x") (Py.Int tick_fontsize));
  _ ← do (ax_tick_params (ax_marg_y g) (Some "y") (Py.Int tick_fontsize));
  _ ← style_legend (ax_joint g) label_fontsize tick_fontsize;
  _ ← do (plt_tight_layout
            (Some [Py.Int 0; Py.Int 0; Py.Int 1; Py.Float "0.98"]));
  do plt_show.

(** *** eda_violin_plot *)

Definition eda_violin_plot (df : DataFrame) (feature_col : string)
    (hue_feature : option string) (palette : option string)
    (title : option string) (show_points : bool)
    (title_fontsize label_fontsize tick_fontsize : Z)
    (variable_labels : LabelMap) : prog unit :=
  _ ← check_columns df "列" [feature_col];
  _ ← check_optional df "hue列" hue_feature;
  _ ← do plt_figure;
  let display_feature_col := label_of variable_labels feature_col in
  let display_hue_feature := label_of_optional variable_labels hue_feature in
  let inner_setting := if show_points then Some "quartile" else None in
  '(ax, default_title) ←
    (if Py.truthy hue_feature then
       ax ← do (sns_violinplot df hue_feature feature_col palette inner_setting);
       let default_title :=
         "Violin Plot of " ++ display_feature_col ++ " by "
           ++ Py.fmt display_hue_feature in
       _ ← do (ax_set_xlabel ax display_hue_feature (Py.Int label_fontsize));
       Ret (ax, default_title)
     else
       ax ← do (sns_violinplot df None feature_col palette inner_setting);
       let default_title := "Violin Plot of " ++ display_feature_col in
       _ ← do (ax_set_xlabel ax (Some "") (Py.Int label_fontsize));
       Ret (ax, default_title));
  _ ← (if Py.truthy title
       then do (ax_set_title ax title (Py.Int title_fontsize))
       else do (ax_set_title ax (Some default_title) (Py.Int title_fontsize)));
  _ ← do (ax_set_ylabel ax (Some display_feature_col) (Py.Int label_fontsize));
  _ ← do (ax_tick_params ax (Some "x") (Py.Int tick_fontsize));
  _ ← do (ax_tick_params ax (Some "y") (Py.Int tick_fontsize));
  _ ← style_legend ax label_fontsize tick_fontsize;
  _ ← do (plt_tight_layout None);
  do plt_show.

(** *** eda_bar_plot *)

Definition eda_bar_plot (df : DataFrame) (categorical_col feature_col : string)
    (hue_feature : option string) (palette : option string)
    (title : option string)
    (title_fontsize label_fontsize tick_fontsize : Z) (show_error_bars : bool)
    (variable_labels : LabelMap) : prog unit :=
  _ ← check_columns df "カテゴリ列" [categorical_col];
  _ ← check_columns df "特徴量列" [feature_col];
  _ ← check_optional df "hue列" hue_feature;
  _ ← do plt_figure;
  let display_categorical_col := label_of variable_labels categorical_col in
  let display_feature_col := label_of variable_labels feature_col in
  let display_hue_feature := label_of_optional variable_labels hue_feature in
  let errorbar_setting := if show_error_bars then Some ("ci", 95) else None in
  ax ← do (sns_barplot df categorical_col feature_col hue_feature palette
             errorbar_setting);
  _ ← (if Py.truthy title
       then do (ax_set_title ax title (Py.Int title_fontsize))
       else
         let default_title :=
           "Mean " ++ display_feature_col ++ " by " ++ display_categorical_col in
         let default_title :=
           if Py.truthy display_hue_feature
           then default_title ++ " (Hue by " ++ Py.fmt display_hue_feature ++ ")"
           else default_title in
         do (ax_set_title ax (Some default_title) (Py.Int title_fontsize)));
  _ ← do (ax_set_xlabel ax (Some display_categorical_col) (Py.Int label_fontsize));
  _ ← do (ax_set_ylabel ax (Some display_feature_col) (Py.Int label_fontsize));
  _ ← do (ax_tick_params ax (Some "x") (Py.Int tick_fontsize));
  _ ← do (ax_tick_params ax (Some "y") (Py.Int tick_fontsize));
  _ ← style_legend ax label_fontsize tick_fontsize;
  _ ← do (plt_tight_layout None);
  do plt_show.

(** *** eda_heatmap_crosstab *)

(** [df[col]] for [col : Optional[str]]. *)
Definition getitem_optional (df : DataFrame) (col : option string)
  : Py.exn + Series :=
  match col with
  | Some c => getitem df c
  | None => inl (Py.KeyError "None")
  end.

(** Lines 401-415: the table that is drawn. *)
Definition build_crosstab (df : DataFrame)
    (categorical_col1 categorical_col2 : string) (value_col : option string)
    (agg_func : string) : prog CrossTab :=
  if Py.truthy value_col then
    index ← lift (getitem df categorical_col1);
    columns ← lift (getitem df categorical_col2);
    values ← lift (getitem_optional df value_col);
    do (pd_crosstab index columns (Some values) (Some agg_func))
  else
    index ← lift (getitem df categorical_col1);
    columns ← lift (getitem df categorical_col2);
    do (pd_crosstab index columns None None).

Definition eda_heatmap_crosstab (df : DataFrame)
    (categorical_col1 categorical_col2 : string) (value_col : option string)
    (agg_func : string) (palette : option string) (title : option string)
    (title_fontsize label_fontsize tick_fontsize cbar_label_fontsize : Z)
    (annot : bool) (fmt : string) (linewidths : Py.number)
    (linecolor : string) (variable_labels : LabelMap) : prog unit :=
  _ ← check_columns df "カテゴリ列" [categorical_col1; categorical_col2];
  _ ← check_optional df "値の列" value_col;
  _ ← do plt_figure;
  let display_categorical_col1 := label_of variable_labels categorical_col1 in
  let display_categorical_col2 := label_of variable_labels categorical_col2 in
  let display_value_col := label_of_optional variable_labels value_col in
  crosstab_df ←
    build_crosstab df categorical_col1 categorical_col2 value_col agg_func;
  ax ← do (sns_heatmap crosstab_df palette annot fmt linewidths linecolor
             [("label",
               if Py.truthy value_col
               then (if Py.truthy display_value_col
                     then Py.fmt display_value_col else "Count")
                      ++ " (" ++ agg_func ++ ")"
               else "Count")]);
  _ ← (if Py.truthy title
       then do (ax_set_title ax title (Py.Int title_fontsize))
       else
         let default_title :=
           if Py.truthy value_col
           then Py.fmt display_value_col ++ " (" ++ agg_func ++ ") by "
                  ++ display_categorical_col1 ++ " and "
                  ++ display_categorical_col2
           else "Count by " ++ display_categorical_col1 ++ " and "
                  ++ display_categorical_col2 in
         do (ax_set_title ax (Some default_title) (Py.Int title_fontsize)));
  _ ← do (ax_set_xlabel ax (Some display_categorical_col2) (Py.Int label_fontsize));
  _ ← do (ax_set_ylabel ax (Some display_categorical_col1) (Py.Int label_fontsize));
  _ ← do (ax_tick_params ax (Some "x") (Py.Int tick_fontsize));
  _ ← do (ax_tick_params ax (Some "y") (Py.Int tick_fontsize));
  cbar ← do (ax_collections_0_colorbar ax);
  _ ← do (cbar_set_label cbar "Count" (Py.Int cbar_label_fontsize));
  _ ← do (ax_tick_params (cbar_ax cbar) None (Py.Int tick_fontsize));
  _ ← do (plt_tight_layout None);
  do plt_show.

(** ** The caller's objects

    Python hands a function its arguments by reference: [df] and
    [variable_labels] are objects that the function shares with its
    caller, and an assignment to one of their items or an in-place update
    is seen by the caller.  To speak about that, the four functions are
    given a second time, with the two objects held in a memory which the
    function can look at and can write to, and which the libraries reach
    as well. *)

Record memory : Type := mkMemory {
  mem_df : DataFrame;              (* the object passed as [df] *)
  mem_variable_labels : LabelMap;  (* the object passed as [variable_labels] *)
  mem_module : list CrossTab;      (* tables held in module-level variables *)
}.

Module ByRef.

(** A function body: it returns, raises, looks at the memory, writes to
    it, or calls a library. *)
Inductive code (A : Type) : Type :=
| Done (a : A)
| Fail (e : Py.exn)
| Look (k : memory → code A)
| Assign (m : memory) (k : code A)
| Call {R : Type} (c : call R) (k : R → code A).

Arguments Done {A} a.
Arguments Fail {A} e.
Arguments Look {A} k.
Arguments Assign {A} m k.
Arguments Call {A R} c k.

Fixpoint bind {A B : Type} (p : code A) (f : A → code B) : code B :=
  match p with
  | Done a => f a
  | Fail e => Fail e
  | Look k => Look (λ m, bind (k m) f)
  | Assign m k => Assign m (bind k f)
  | Call c k => Call c (λ r, bind (k r) f)
  end.

Global Instance code_ret : MRet code := @Done.
Global Instance code_bind : MBind code := λ A B f p, bind p f.

Definition lib {R : Type} (c : call R) : code R := Call c Done.

(** A piece that only calls libraries. *)
Fixpoint of_prog {A : Type} (p : prog A) : code A :=
  match p with
  | Ret a => Done a
  | Raise e => Fail e
  | Vis c k => Call c (λ r, of_prog (k r))
  end.

(** What a run did, in order: the function's own writes and its calls. *)
Inductive action : Type :=
| Wrote (m : memory)
| Called (ev : event).

Definition writes (tr : list action) : list memory :=
  omap (λ a, match a with Wrote m => Some m | Called _ => None end) tr.

Definition calls (tr : list action) : list event :=
  omap (λ a, match a with Called ev => Some ev | Wrote _ => None end) tr.

(** A run.  The libraries see the memory too: their state is the memory
    together with a world [W] of their own. *)
Fixpoint exec {W A : Type} (L : library (memory * W)) (p : code A)
    (s : memory * W) : list action * outcome A * (memory * W) :=
  match p with
  | Done a => ([], Returned a, s)
  | Fail e => ([], Raised e, s)
  | Look k => exec L (k s.1) s
  | Assign m k =>
      let '(tr, o, s') := exec L k (m, s.2) in (Wrote m :: tr, o, s')
  | Call c k =>
      match answer L c s with
      | (inl e, s') => ([Called (Ev c (inl e))], Raised e, s')
      | (inr r, s') =>
          let '(tr, o, s'') := exec L (k r) s' in
          (Called (Ev c (inr r)) :: tr, o, s'')
      end
  end.

(** [df], as an argument of a library call: the object as it is now. *)
Definition the_df : code DataFrame := Look (λ m, Done (mem_df m)).

(** [col in df.columns] *)
Definition in_columns (col : string) : code bool :=
  Look (λ m, Done (has_column (mem_df m) col)).

(** [df[col]] *)
Definition df_getitem (col : option string) : code Series :=
  Look (λ m, match getitem_optional (mem_df m) col with
             | inl e => Fail e
             | inr s => Done s
             end).

(** [variable_labels.get(col, col) if variable_labels else col] *)
Definition label (col : string) : code string :=
  Look (λ m, Done (label_of (mem_variable_labels m) col)).

(** [variable_labels.get(col, col) if variable_labels and col else col] *)
Definition label_optional (col : option string) : code (option string) :=
  Look (λ m, Done (label_of_optional (mem_variable_labels m) col)).

(** [for col in cols: if col not in df.columns: raise ValueError(...)] *)
Fixpoint check_columns (what : string) (cols : list string) : code unit :=
  match cols with
  | [] => Done ()
  | col :: cols' =>
      present ← in_columns col;
      if present : bool then check_columns what cols'
      else Fail (Py.ValueError (missing_column what col))
  end.

(** [if col and col not in df.columns: raise ValueError(...)] *)
Definition check_optional (what : string) (col : option string) : code unit :=
  match col with
  | Some c =>
      if Py.truthy col then
        present ← in_columns c;
        if present : bool then Done ()
        else Fail (Py.ValueError (missing_column what c))
      else Done ()
  | None => Done ()
  end.

Definition eda_scatter_plot (x_col y_col : string)
    (hue_feature : option string) (kind : string) (palette : option string)
    (reg_line : bool) (title_fontsize label_fontsize tick_fontsize : Z)
  : code unit :=
  _ ← check_columns "列" [x_col; y_col];
  _ ← check_optional "hue列" hue_feature;
  display_x_col ← label x_col;
  display_y_col ← label y_col;
  display_hue_feature ← label_optional hue_feature;
  df ← the_df;
  g ← lib (sns_jointplot df x_col y_col hue_feature kind palette);
  _ ← (if reg_line && negb (String.eqb kind "reg") then
         df ← the_df;
         _ ← lib (sns_regplot df x_col y_col (ax_joint g) false "red"
                    [("alpha", Py.Float "0.7"); ("lw", Py.Int 2)]);
         Done ()
       else Done ());
  _ ← lib (fig_suptitle (fig g)
             ("Joint Plot of " ++ display_x_col ++ " vs " ++ display_y_col
                ++ " (Hue by " ++ Py.fmt display_hue_feature ++ ")")
             (Py.Float "1.02") (Py.Int title_fontsize));
  _ ← lib (ax_set_xlabel (ax_joint g) (Some display_x_col) (Py.Int label_fontsize));
  _ ← lib (ax_set_ylabel (ax_joint g) (Some display_y_col) (Py.Int label_fontsize));
  _ ← lib (ax_tick_params (ax_joint g) (Some "x") (Py.Int tick_fontsize));
  _ ← lib (ax_tick_params (ax_joint g) (Some "y") (Py.Int tick_fontsize));
  _ ← lib (ax_tick_params (ax_marg_x g) (Some "x") (Py.Int tick_fontsize));
  _ ← lib (ax_tick_params (ax_marg_y g) (Some "y") (Py.Int tick_fontsize));
  _ ← of_prog (style_legend (ax_joint g) label_fontsize tick_fontsize);
  _ ← lib (plt_tight_layout
             (Some [Py.Int 0; Py.Int 0; Py.Int 1; Py.Float "0.98"]));
  lib plt_show.

Definition eda_violin_plot (feature_col : string)
    (hue_feature : option string) (palette : option string)
    (title : option string) (show_points : bool)
    (title_fontsize label_fontsize tick_fontsize : Z) : code unit :=
  _ ← check_columns "列" [feature_col];
  _ ← check_optional "hue列" hue_feature;
  _ ← lib plt_figure;
  display_feature_col ← label feature_col;
  display_hue_feature ← label_optional hue_feature;
  let inner_setting := if show_points then Some "quartile" else None in
  '(ax, default_title) ←
    (if Py.truthy hue_feature then
       df ← the_df;
       ax ← lib (sns_violinplot df hue_feature feature_col palette inner_setting);
       let default_title :=
         "Violin Plot of " ++ display_feature_col ++ " by "
           ++ Py.fmt display_hue_feature in
       _ ← lib (ax_set_xlabel ax display_hue_feature (Py.Int label_fontsize));
       Done (ax, default_title)
     else
       df ← the_df;
       ax ← lib (sns_violinplot df None feature_col palette inner_setting);
       let default_title := "Violin Plot of " ++ display_feature_col in
       _ ← lib (ax_set_xlabel ax (Some "") (Py.Int label_fontsize));
       Done (ax, default_title));
  _ ← (if Py.truthy title
       then lib (ax_set_title ax title (Py.Int title_fontsize))
       else lib (ax_set_title ax (Some default_title) (Py.Int title_fontsize)));
  _ ← lib (ax_set_ylabel ax (Some display_feature_col) (Py.Int label_fontsize));
  _ ← lib (ax_tick_params ax (Some "x") (Py.Int tick_fontsize));
  _ ← lib (ax_tick_params ax (Some "y") (Py.Int tick_fontsize));
  _ ← of_prog (style_legend ax label_fontsize tick_fontsize);
  _ ← lib (plt_tight_layout None);
  lib plt_show.

Definition eda_bar_plot (categorical_col feature_col : string)
    (hue_feature : option string) (palette : option string)
    (title : option string)
    (title_fontsize label_fontsize tick_fontsize : Z) (show_error_bars : bool)
  : code unit :=
  _ ← check_columns "カテゴリ列" [categorical_col];
  _ ← check_columns "特徴量列" [feature_col];
  _ ← check_optional "hue列" hue_feature;
  _ ← lib plt_figure;
  display_categorical_col ← label categorical_col;
  display_feature_col ← label feature_col;
  display_hue_feature ← label_optional hue_feature;
  let errorbar_setting := if show_error_bars then Some ("ci", 95) else None in
  df ← the_df;
  ax ← lib (sns_barplot df categorical_col feature_col hue_feature palette
              errorbar_setting);
  _ ← (if Py.truthy title
       then lib (ax_set_title ax title (Py.Int title_fontsize))
       else
         let default_title :=
           "Mean " ++ display_feature_col ++ " by " ++ display_categorical_col in
         let default_title :=
           if Py.truthy display_hue_feature
           then default_title ++ " (Hue by " ++ Py.fmt display_hue_feature ++ ")"
           else default_title in
         lib (ax_set_title ax (Some default_title) (Py.Int title_fontsize)));
  _ ← lib (ax_set_xlabel ax (Some display_categorical_col) (Py.Int label_fontsize));
  _ ← lib (ax_set_ylabel ax (Some display_feature_col) (Py.Int label_fontsize));
  _ ← lib (ax_tick_params ax (Some "x") (Py.Int tick_fontsize));
  _ ← lib (ax_tick_params ax (Some "y") (Py.Int tick_fontsize));
  _ ← of_prog (style_legend ax label_fontsize tick_fontsize);
  _ ← lib (plt_tight_layout None);
  lib plt_show.

(** Lines 401-415: the table that is drawn. *)
Definition build_crosstab (categorical_col1 categorical_col2 : string)
    (value_col : option string) (agg_func : string) : code CrossTab :=
  if Py.truthy value_col then
    index ← df_getitem (Some categorical_col1);
    columns ← df_getitem (Some categorical_col2);
    values ← df_getitem value_col;
    lib (pd_crosstab index columns (Some values) (Some agg_func))
  else
    index ← df_getitem (Some categorical_col1);
    columns ← df_getitem (Some categorical_col2);
    lib (pd_crosstab index columns None None).

Definition eda_heatmap_crosstab
    (categorical_col1 categorical_col2 : string) (value_col : option string)
    (agg_func : string) (palette : option string) (title : option string)
    (title_fontsize label_fontsize tick_fontsize cbar_label_fontsize : Z)
    (annot : bool) (fmt : string) (linewidths : Py.number)
    (linecolor : string) : code unit :=
  _ ← check_columns "カテゴリ列" [categorical_col1; categorical_col2];
  _ ← check_optional "値の列" value_col;
  _ ← lib plt_figure;
  display_categorical_col1 ← label categorical_col1;
  display_categorical_col2 ← label categorical_col2;
  display_value_col ← label_optional value_col;
  crosstab_df ←
    build_crosstab categorical_col1 categorical_col2 value_col agg_func;
  ax ← lib (sns_heatmap crosstab_df palette annot fmt linewidths linecolor
              [("label",
                if Py.truthy value_col
                then (if Py.truthy display_value_col
                      then Py.fmt display_value_col else "Count")
                       ++ " (" ++ agg_func ++ ")"
                else "Count")]);
  _ ← (if Py.truthy title
       then lib (ax_set_title ax title (Py.Int title_fontsize))
       else
         let default_title :=
           if Py.truthy value_col
           then Py.fmt display_value_col ++ " (" ++ agg_func ++ ") by "
                  ++ display_categorical_col1 ++ " and "
                  ++ display_categorical_col2
           else "Count by " ++ display_categorical_col1 ++ " and "
                  ++ display_categorical_col2 in
         lib (ax_set_title ax (Some default_title) (Py.Int title_fontsize)));
  _ ← lib (ax_set_xlabel ax (Some display_categorical_col2) (Py.Int label_fontsize));
  _ ← lib (ax_set_ylabel ax (Some display_categorical_col1) (Py.Int label_fontsize));
  _ ← lib (ax_tick_params ax (Some "x") (Py.Int tick_fontsize));
  _ ← lib (ax_tick_params ax (Some "y") (Py.Int tick_fontsize));
  cbar ← lib (ax_collections_0_colorbar ax);
  _ ← lib (cbar_set_label cbar "Count" (Py.Int cbar_label_fontsize));
  _ ← lib (ax_tick_params (cbar_ax cbar) None (Py.Int tick_fontsize));
  _ ← lib (plt_tight_layout None);
  lib plt_show.

(** The body with every look at the memory answered by [m]: what it
    asks of the libraries as long as the memory stays [m] (after an
    assignment, as long as it stays what was assigned). *)
Fixpoint at_memory {A : Type} (p : code A) (m : memory) : prog A :=
  match p with
  | Done a => Ret a
  | Fail e => Raise e
  | Look k => at_memory (k m) m
  | Assign m' k => at_memory k m'
  | Call c k => Vis c (λ r, at_memory (k r) m)
  end.

(** A body without an assignment. *)
Inductive reads_only {A : Type} : code A → Prop :=
| reads_only_Done a : reads_only (Done a)
| reads_only_Fail e : reads_only (Fail e)
| reads_only_Look k : (∀ m, reads_only (k m)) → reads_only (Look k)
| reads_only_Call {R : Type} (c : call R) k :
    (∀ r, reads_only (k r)) → reads_only (Call c k).

End ByRef.

(** The libraries leave the caller's objects and the module's variables
    as they are. *)
Definition read_only {W : Type} (L : library (memory * W)) : Prop :=
  ∀ (R : Type) (c : call R) (s : memory * W), (answer L c s).2.1 = s.1.

(** A run left the memory alone: the function wrote nothing itself, and
    if the libraries write nothing either, the memory after the call is
    the memory before it: the dataset column by column and value by value,
    the label map entry by entry, and no table kept by the module. *)
Definition untouched {W : Type} (L : library (memory * W))
    (s s' : memory * W) (tr : list ByRef.action) : Prop :=
  ByRef.writes tr = [] ∧ (read_only L → s'.1 = s.1).

(** Programs that make the same calls and continue alike after every
    answer. *)
Inductive same {A : Type} : prog A → prog A → Prop :=
| same_Ret a : same (Ret a) (Ret a)
| same_Raise e : same (Raise e) (Raise e)
| same_Vis {R : Type} (c : call R) k k' :
    (∀ r, same (k r) (k' r)) → same (Vis c k) (Vis c k').

(** ** The libraries, as far as the statements below need them *)

Module Pandas.

(** The order pandas sorts group keys in: numbers before strings, each
    kind in its own order, missing values last. *)
Definition cell_leb (a b : cell) : bool :=
  match a, b with
  | Num x, Num y => (x <=? y)%Z
  | Num _, _ => true
  | Str _, Num _ => false
  | Str s, Str t => String.leb s t
  | Str _, NA => true
  | NA, NA => true
  | NA, _ => false
  end.

Definition cell_le (a b : cell) : Prop := cell_leb a b = true.

Global Instance cell_le_dec : RelDecision cell_le.
Proof. intros a b. unfold cell_le. apply _. Defined.

(** [pd.notna] on both keys of a record. *)
Definition complete (r : cell * cell) : bool :=
  negb (bool_decide (r.1 = NA)) && negb (bool_decide (r.2 = NA)).

(** The records that are grouped: the two columns side by side (they
    share the frame's row index), without those lacking a key. *)
Definition records (index columns : Series) : list (cell * cell) :=
  List.filter complete (zip index columns).

(** Sorted distinct keys. *)
Definition labels (keys : list cell) : list cell :=
  merge_sort cell_le (remove_dups keys).

Definition count_pair (recs : list (cell * cell)) (a b : cell) : Z :=
  Z.of_nat (length (List.filter (λ r, bool_decide (r = (a, b))) recs)).

(** Modelled from the spec: [pd.crosstab(index, columns)] is pandas code,
    which this repository only calls.  Spec 3 and 4.3: the rows are the
    distinct values of the first column, the columns those of the second,
    a cell holds a count, all "per the underlying aggregation semantics".
    For pandas' defaults ([dropna=True], counting with [len],
    [fill_value=0]) that is: only the records with both keys present are
    grouped, the labels are the sorted distinct keys of those records,
    and a pair without a record counts 0. *)
Definition crosstab (index columns : Series) : CrossTab :=
  let recs := records index columns in
  let rows := labels recs.*1 in
  let cols := labels recs.*2 in
  {| ct_index := rows;
     ct_columns := cols;
     ct_cells := map (λ a, map (λ b, Some (count_pair recs a b)) cols) rows |}.

(** Number of rows and of columns ([crosstab_df.shape]). *)
Definition shape (t : CrossTab) : nat * nat :=
  (length (ct_index t), length (ct_columns t)).

Definition sumZ (l : list Z) : Z := foldr Z.add 0 l.

(** The cells [f a b] of a table, summed row by row. *)
Definition sum_cells (f : cell → cell → Z) (rows cols : list cell) : Z :=
  sumZ (map (λ a, sumZ (map (f a) cols)) rows).

(** Sum of all cells ([crosstab_df.values.sum()]). *)
Definition total (t : CrossTab) : Z :=
  sumZ (map (λ row, sumZ (map (default 0) row)) (ct_cells t)).

End Pandas.

(** A small stand-in for pandas, seaborn and matplotlib, used to run the
    programs on concrete inputs.  It hands out fresh object numbers, draws
    nothing, gives a plot a legend exactly when a hue is passed, and its
    aggregation engine knows the single name ['count'].  The statements
    below quantify over every [library]; this one only shows that their
    hypotheses can be met. *)
Module StandIn.

Record world : Type := mkWorld {
  next_id : nat;
  legends : list (Axes * Legend);
}.

Definition start : world := {| next_id := O; legends := [] |}.

Definition lookup_legend (w : world) (ax : Axes) : option Legend :=
  snd <$> List.find (λ p, Nat.eqb p.1 ax) (legends w).

Definition new_axes (hue : option string) (w : world) : Axes * world :=
  let ax := next_id w in
  if Py.truthy hue
  then (ax, {| next_id := S (S ax); legends := (ax, S ax) :: legends w |})
  else (ax, {| next_id := S ax; legends := legends w |}).

Definition count_values (index columns values : Series) (a b : cell) : option Z :=
  let hits :=
    List.filter (λ r, bool_decide (r.1 = (a, b))) (zip (zip index columns) values) in
  match hits with
  | [] => None
  | _ :: _ =>
      Some (Z.of_nat (length (List.filter (λ r, negb (bool_decide (r.2 = NA))) hits)))
  end.

Definition crosstab (index columns : Series) (values : option Series)
    (aggfunc : option string) : Py.exn + CrossTab :=
  match values, aggfunc with
  | None, None => inr (Pandas.crosstab index columns)
  | None, Some _ => inl (Py.ValueError "aggfunc cannot be used without values.")
  | Some _, None => inl (Py.ValueError "values cannot be used without an aggfunc.")
  | Some v, Some f =>
      if String.eqb f "count" then
        let recs := Pandas.records index columns in
        let rows := Pandas.labels recs.*1 in
        let cols := Pandas.labels recs.*2 in
        inr {| ct_index := rows;
               ct_columns := cols;
               ct_cells :=
                 map (λ a, map (count_values index columns v a) cols) rows |}
      else
        inl (Py.AttributeError
               ("'SeriesGroupBy' object has no attribute '" ++ f ++ "'"))
  end.

Definition respond {R : Type} (c : call R) (w : world) : (Py.exn + R) * world :=
  match c in call R return (Py.exn + R) * world with
  | plt_figure =>
      (inr (next_id w), {| next_id := S (next_id w); legends := legends w |})
  | plt_setp _ _ => (inr (), w)
  | plt_tight_layout _ => (inr (), w)
  | plt_show => (inr (), w)
  | sns_jointplot _ _ _ hue _ _ =>
      let f := next_id w in
      let '(ax, w') :=
        new_axes hue {| next_id := S f; legends := legends w |} in
      let m := next_id w' in
      (inr {| fig := f; ax_joint := ax; ax_marg_x := m; ax_marg_y := S m |},
       {| next_id := S (S m); legends := legends w' |})
  | sns_regplot _ _ _ ax _ _ _ => (inr ax, w)
  | sns_violinplot _ _ _ _ _ =>
      let '(ax, w') := new_axes None w in (inr ax, w')
  | sns_barplot _ _ _ hue _ _ =>
      let '(ax, w') := new_axes hue w in (inr ax, w')
  | sns_heatmap _ _ _ _ _ _ _ =>
      let '(ax, w') := new_axes None w in (inr ax, w')
  | pd_crosstab index columns values aggfunc =>
      (crosstab index columns values aggfunc, w)
  | fig_suptitle _ _ _ _ => (inr (), w)
  | ax_set_title _ _ _ => (inr (), w)
  | ax_set_xlabel _ _ _ => (inr (), w)
  | ax_set_ylabel _ _ _ => (inr (), w)
  | ax_tick_params _ _ _ => (inr (), w)
  | ax_legend_ ax => (inr (lookup_legend w ax), w)
  | ax_get_legend ax => (inr (lookup_legend w ax), w)
  | legend_get_texts l => (inr [l + 1000]%nat, w)
  | legend_get_title l => (inr (Some (l + 2000)%nat), w)
  | text_set_fontsize _ _ => (inr (), w)
  | ax_collections_0_colorbar ax =>
      (inr {| cbar_id := next_id w; cbar_ax := S (next_id w) |},
       {| next_id := S (S (next_id w)); legends := legends w |})
  | cbar_set_label _ _ _ => (inr (), w)
  end.

Definition lib : library world := {| answer := @respond |}.

End StandIn.

(** ** The file system (module [os])

    POSIX paths; directories and plain files, no links and no permissions.
    A node is addressed by the names from the root down. *)
Module Os.

Inductive node : Type := Dir | File.

Global Instance node_eq_dec : EqDecision node.
Proof. solve_decision. Defined.

Abbreviation path := (list string).

Record state : Type := mkState {
  nodes : gmap path node;   (* the root itself is always a directory *)
  cwd : path;               (* the process's working directory *)
  stdout : list string;     (* lines printed so far *)
}.

(** The state monad of the process; a failed call keeps what was done. *)
Definition M (A : Type) : Type := state → (Py.exn + A) * state.

Global Instance M_ret : MRet M := λ A a st, (inr a, st).
Global Instance M_bind : MBind M := λ A B f m st,
  match m st with
  | (inl e, st') => (inl e, st')
  | (inr a, st') => f a st'
  end.

(** [s.split(sep)] *)
Fixpoint split (sep : ascii) (s : string) : list string :=
  match s with
  | EmptyString => [""]
  | String c s' =>
      if Ascii.eqb c sep then "" :: split sep s'
      else match split sep s' with
           | [] => [String c ""]
           | w :: ws => String c w :: ws
           end
  end.

(** [s.startswith('/')] and [s.endswith('/')] *)
Definition isabs (s : string) : bool :=
  match s with
  | String c _ => Ascii.eqb c "/"
  | EmptyString => false
  end.

Fixpoint ends_with_sep (s : string) : bool :=
  match s with
  | EmptyString => false
  | String c EmptyString => Ascii.eqb c "/"
  | String _ s' => ends_with_sep s'
  end.

(** [os.path.join(a, b)] of [posixpath]. *)
Definition path_join (a b : string) : string :=
  if isabs b then b
  else if String.eqb a "" || ends_with_sep a then a ++ b
  else a ++ "/" ++ b.

(** The string of a node's address. *)
Definition render (p : path) : string := "/" ++ String.concat "/" p.

(** Follow the names [cs] from the directory [cur].  An empty name and
    ['.'] stay, ['..'] goes up (the root is its own parent), any other
    name enters that child; a missing child is created when [create] is
    set ([os.makedirs(..., exist_ok=True)]) and is an error otherwise; a
    plain file in the way is an error. *)
Fixpoint walk (create : bool) (name : string) (ns : gmap path node)
    (cur : path) (cs : list string) : Py.exn + gmap path node * path :=
  match cs with
  | [] => inr (ns, cur)
  | c :: cs' =>
      if bool_decide (c = "" ∨ c = ".") then walk create name ns cur cs'
      else if bool_decide (c = "..") then
        walk create name ns (removelast cur) cs'
      else
        let q := (cur ++ [c])%list in
        match ns !! q with
        | Some Dir => walk create name ns q cs'
        | Some File => inl (Py.OSError name)
        | None =>
            if create then walk create name (<[q := Dir]> ns) q cs'
            else inl (Py.OSError name)
        end
  end.

(** Where the names of a path string are followed from. *)
Definition base (name : string) (st : state) : path :=
  if isabs name then [] else cwd st.

Definition resolve (create : bool) (name : string) (st : state)
  : Py.exn + gmap path node * path :=
  if String.eqb name "" then inl (Py.OSError name)
  else walk create name (nodes st) (base name st) (split "/" name).

(** [name], read from the directory [start], is the existing
    directory [d]. *)
Definition names_dir (ns : gmap path node) (start : path) (name : string)
    (d : path) : Prop :=
  name ≠ "" ∧ walk false name ns start (split "/" name) = inr (ns, d).

(** The children a walk enters, in order, and the directory it ends in,
    as long as nothing is in its way. *)
Fixpoint track (cur : path) (cs : list string) : list path :=
  match cs with
  | [] => []
  | c :: cs' =>
      if bool_decide (c = "" ∨ c = ".") then track cur cs'
      else if bool_decide (c = "..") then track (removelast cur) cs'
      else (cur ++ [c])%list :: track (cur ++ [c])%list cs'
  end.

Fixpoint dest (cur : path) (cs : list string) : path :=
  match cs with
  | [] => cur
  | c :: cs' =>
      if bool_decide (c = "" ∨ c = ".") then dest cur cs'
      else if bool_decide (c = "..") then dest (removelast cur) cs'
      else dest (cur ++ [c])%list cs'
  end.

(** The nodes a creating walk leaves behind, also when a plain file
    stops it: the directories made before that stay. *)
Fixpoint built (ns : gmap path node) (cur : path) (cs : list string)
  : gmap path node :=
  match cs with
  | [] => ns
  | c :: cs' =>
      if bool_decide (c = "" ∨ c = ".") then built ns cur cs'
      else if bool_decide (c = "..") then built ns (removelast cur) cs'
      else
        let q := (cur ++ [c])%list in
        match ns !! q with
        | Some Dir => built ns q cs'
        | Some File => ns
        | None => built (<[q := Dir]> ns) q cs'
        end
  end.

(** [os.makedirs(name, exist_ok=True)].  It makes the missing
    directories from the top down and undoes nothing when it fails. *)
Definition makedirs (name : string) : M unit := λ st,
  match resolve true name st with
  | inl e =>
      (inl e,
       {| nodes := if String.eqb name "" then nodes st
                   else built (nodes st) (base name st) (split "/" name);
          cwd := cwd st; stdout := stdout st |})
  | inr (ns, _) => (inr (), {| nodes := ns; cwd := cwd st; stdout := stdout st |})
  end.

(** [os.chdir(name)] *)
Definition chdir (name : string) : M unit := λ st,
  match resolve false name st with
  | inl e => (inl e, st)
  | inr (_, d) => (inr (), {| nodes := nodes st; cwd := d; stdout := stdout st |})
  end.

(** [os.getcwd()] *)
Definition getcwd : M string := λ st, (inr (render (cwd st)), st).

(** [print(line)] *)
Definition print (line : string) : M unit := λ st,
  (inr (), {| nodes := nodes st; cwd := cwd st; stdout := (stdout st ++ [line])%list |}).

(** [os.path.isdir] on a node's address. *)
Definition isdir (st : state) (p : path) : bool :=
  match p with
  | [] => true
  | _ => bool_decide (nodes st !! p = Some Dir)
  end.

End Os.

(** ** create_project_folders.py *)

(** [for folder in folders: os.makedirs(folder, exist_ok=True)] *)
Fixpoint make_folders (folders : list string) : Os.M unit :=
  match folders with
  | [] => mret ()
  | folder :: folders' => _ ← Os.makedirs folder; make_folders folders'
  end.

Definition setup_project_directory (base_path : string)
  : Os.M (string * string * string) :=
  let folders_to_create := ["01_data"; "02_document"; "03_output"; "04_script"] in
  _ ← Os.makedirs base_path;
  _ ← Os.chdir base_path;
  _ ← make_folders folders_to_create;
  _ ← Os.makedirs (Os.path_join "01_data" "original_data");
  working_directory ← Os.getcwd;
  let input_path := Os.path_join working_directory "01_data" in
  let output_path := Os.path_join working_directory "03_output" in
  _ ← Os.print "--- フォルダ設定完了 ---";
  _ ← Os.print ("ワーキングディレクトリ: " ++ working_directory);
  _ ← Os.print ("インプットパス: " ++ input_path);
  _ ← Os.print ("アウトプットパス: " ++ output_path);
  _ ← Os.print "-----------------------";
  mret (working_directory, input_path, output_path).

(** ** What a program and a run show *)

(** The exception raised before any library is called, if there is one. *)
Definition validation_error {A : Type} (p : prog A) : option Py.exn :=
  match p with
  | Raise e => Some e
  | _ => None
  end.

(** [p] raises [e] and nothing was rendered or computed on the way:
    whatever the libraries are, they are not called and keep their state. *)
Definition raises_without_effect {A : Type} (p : prog A) (e : Py.exn) : Prop :=
  ∀ (S : Type) (L : library S) (s : S), run L p s = ([], Raised e, s).

(** The column named in a [ValueError] raised before any library call:
    [p] raises such an error, its message quotes [col], and [col] is
    not a column of [D]. *)
Definition raises_missing_column {A : Type} (D : DataFrame) (p : prog A)
    (col : string) : Prop :=
  (col ∉ columns D) ∧
  ∃ msg, Py.names msg col ∧ raises_without_effect p (Py.ValueError msg).

(** The grid that [sns.jointplot] returned. *)
Definition grid_of (ev : event) : option JointGrid :=
  match ev with
  | Ev c r =>
      match c in call R return Py.exn + R → option JointGrid with
      | sns_jointplot _ _ _ _ _ _ =>
          λ r, match r with inr g => Some g | inl _ => None end
      | _ => λ _, None
      end r
  end.

Definition joint_grid (tr : list event) : option JointGrid :=
  head (omap grid_of tr).

(** The axes on which [sns.regplot] was asked to draw a regression line. *)
Definition regplot_axes_of (ev : event) : option Axes :=
  match ev with
  | Ev c _ =>
      match c with
      | sns_regplot _ _ _ ax _ _ _ => Some ax
      | _ => None
      end
  end.

Definition regplot_axes (tr : list event) : list Axes :=
  omap regplot_axes_of tr.

(** The label an event gives the colorbar: [sns.heatmap] creates the
    colorbar with [cbar_kws['label']], [cbar.set_label] replaces it. *)
Definition cbar_label_of (ev : event) : option string :=
  match ev with
  | Ev c r =>
      match c in call R return Py.exn + R → option string with
      | sns_heatmap _ _ _ _ _ _ cbar_kws =>
          λ r, match r with
               | inr _ => snd <$> List.find (λ kv, String.eqb kv.1 "label") cbar_kws
               | inl _ => None
               end
      | cbar_set_label _ label _ =>
          λ r, match r with inr _ => Some label | inl _ => None end
      | _ => λ _, None
      end r
  end.

(** The label the colorbar carries at the end of a run. *)
Definition colorbar_label (tr : list event) : option string :=
  last (omap cbar_label_of tr).

(** The tables [pd.crosstab] returned, and the tables [sns.heatmap] drew. *)
Definition crosstab_of (ev : event) : option CrossTab :=
  match ev with
  | Ev c r =>
      match c in call R return Py.exn + R → option CrossTab with
      | pd_crosstab _ _ _ _ =>
          λ r, match r with inr t => Some t | inl _ => None end
      | _ => λ _, None
      end r
  end.

Definition heatmap_table_of (ev : event) : option CrossTab :=
  match ev with
  | Ev c _ =>
      match c with
      | sns_heatmap data _ _ _ _ _ _ => Some data
      | _ => None
      end
  end.

Definition crosstab_results (tr : list event) : list CrossTab :=
  omap crosstab_of tr.

Definition heatmap_tables (tr : list event) : list CrossTab :=
  omap heatmap_table_of tr.

(** What [pd.crosstab] was asked for: index, columns, values, aggfunc. *)
Definition crosstab_request_of (ev : event)
  : option (Series * Series * option Series * option string) :=
  match ev with
  | Ev c _ =>
      match c with
      | pd_crosstab index columns values aggfunc =>
          Some (index, columns, values, aggfunc)
      | _ => None
      end
  end.

Definition crosstab_requests (tr : list event)
  : list (Series * Series * option Series * option string) :=
  omap crosstab_request_of tr.

(** The label resolver in the words of the spec (4.1): the map's value for
    the identifier if present, else the identifier unchanged. *)
Module Spec.

Definition resolve (m : LabelMap) (i : string) : string :=
  match m with
  | Some d =>
      match d !! i with
      | Some v => v
      | None => i
      end
  | None => i
  end.

End Spec.

(** ** Data for the examples *)

Module Demo.

Definition df : DataFrame :=
  [("a", [Str "x"; Str "y"; Str "x"; Str "y"]);
   ("b", [Str "p"; Str "q"; Str "q"; NA]);
   ("v", [Num 10; Num 20; NA; Num 40])].

Definition labels : LabelMap := Some {[ "a" := "Group A"; "" := "All" ]}.

(** The caller's objects of the examples. *)
Definition mem : memory :=
  {| mem_df := df; mem_variable_labels := labels; mem_module := [] |}.

(** The stand-in next to a memory, which it leaves alone. *)
Definition lib : library (memory * StandIn.world) :=
  {| answer := λ R c s, let '(r, w) := StandIn.respond c s.2 in (r, (s.1, w)) |}.

Definition fs : Os.state := {| Os.nodes := ∅; Os.cwd := []; Os.stdout := [] |}.

(** The directories of the layout under [/tmp/proj1], with the two
    above them. *)
Definition scaffold : list Os.path :=
  [["tmp"]; ["tmp"; "proj1"];
   ["tmp"; "proj1"; "01_data"]; ["tmp"; "proj1"; "02_document"];
   ["tmp"; "proj1"; "03_output"]; ["tmp"; "proj1"; "04_script"];
   ["tmp"; "proj1"; "01_data"; "original_data"]].

End Demo.

(** ** Further observations on a run *)

(** What a call of [plt.show()] answered. *)
Definition show_of (ev : event) : option (Py.exn + unit) :=
  match ev with
  | Ev c r =>
      match c in call R return Py.exn + R → option (Py.exn + unit) with
      | plt_show => λ r, Some r
      | _ => λ _, None
      end r
  end.

(** The calls of [plt.show()] in a run, each with its answer. *)
Definition show_calls (tr : list event) : list (Py.exn + unit) :=
  omap show_of tr.

(** The titles given to [ax.set_title] and to [fig.suptitle]. *)
Definition title_of (ev : event) : option (option string) :=
  match ev with
  | Ev c _ =>
      match c with
      | ax_set_title _ label _ => Some label
      | fig_suptitle _ t _ _ => Some (Some t)
      | _ => None
      end
  end.

Definition titles (tr : list event) : list (option string) :=
  omap title_of tr.

(** The labels given to [ax.set_xlabel] and to [ax.set_ylabel]. *)
Definition xlabel_of (ev : event) : option (option string) :=
  match ev with
  | Ev c _ =>
      match c with
      | ax_set_xlabel _ label _ => Some label
      | _ => None
      end
  end.

Definition ylabel_of (ev : event) : option (option string) :=
  match ev with
  | Ev c _ =>
      match c with
      | ax_set_ylabel _ label _ => Some label
      | _ => None
      end
  end.

Definition xlabels (tr : list event) : list (option string) :=
  omap xlabel_of tr.

Definition ylabels (tr : list event) : list (option string) :=
  omap ylabel_of tr.

(** The column names a seaborn plotting call is given ([x], [y] and,
    where the call has one, [hue]). *)
Definition plotted_of (ev : event) : option (list (option string)) :=
  match ev with
  | Ev c _ =>
      match c with
      | sns_jointplot _ x y hue _ _ => Some [Some x; Some y; hue]
      | sns_regplot _ x y _ _ _ _ => Some [Some x; Some y]
      | sns_violinplot _ x y _ _ => Some [x; Some y]
      | sns_barplot _ x y hue _ _ => Some [Some x; Some y; hue]
      | _ => None
      end
  end.

Definition plotted (tr : list event) : list (list (option string)) :=
  omap plotted_of tr.

(** What reading [ax.legend_] gave: whether the axes have a legend. *)
Definition legend_read_of (ev : event) : option bool :=
  match ev with
  | Ev c r =>
      match c in call R return Py.exn + R → option bool with
      | ax_legend_ _ =>
          λ r, match r with
               | inr (Some _) => Some true
               | inr None => Some false
               | inl _ => None
               end
      | _ => λ _, None
      end r
  end.

Definition legend_reads (tr : list event) : list bool :=
  omap legend_read_of tr.

(** The entries [legend.get_texts()] gave, and the objects and font size
    [plt.setp] was applied to. *)
Definition texts_read_of (ev : event) : option (list Text) :=
  match ev with
  | Ev c r =>
      match c in call R return Py.exn + R → option (list Text) with
      | legend_get_texts _ =>
          λ r, match r with inr ts => Some ts | inl _ => None end
      | _ => λ _, None
      end r
  end.

Definition setp_of (ev : event) : option (list Text * Py.number) :=
  match ev with
  | Ev c _ =>
      match c with
      | plt_setp objs fontsize => Some (objs, fontsize)
      | _ => None
      end
  end.

Definition texts_reads (tr : list event) : list (list Text) :=
  omap texts_read_of tr.

Definition setp_calls (tr : list event) : list (list Text * Py.number) :=
  omap setp_of tr.

(** The title [legend.get_title()] gave ([None] for a legend without
    one), and the text objects whose font size was set, with the size. *)
Definition title_read_of (ev : event) : option (option Text) :=
  match ev with
  | Ev c r =>
      match c in call R return Py.exn + R → option (option Text) with
      | legend_get_title _ =>
          λ r, match r with inr t => Some t | inl _ => None end
      | _ => λ _, None
      end r
  end.

Definition fontsize_of (ev : event) : option (Text * Py.number) :=
  match ev with
  | Ev c _ =>
      match c with
      | text_set_fontsize t fontsize => Some (t, fontsize)
      | _ => None
      end
  end.

Definition title_reads (tr : list event) : list (option Text) :=
  omap title_read_of tr.

Definition fontsize_calls (tr : list event) : list (Text * Py.number) :=
  omap fontsize_of tr.

(** [col] is usable as an optional column of [D]: it is [None], empty, or
    one of the columns. *)
Definition optional_ok (D : DataFrame) (col : option string) : Prop :=
  ∀ c, col = Some c → c ≠ "" → c ∈ columns D.

(** Nothing of [st] is gone or replaced in [st'], and what [st'] has in
    addition are directories. *)
Definition grown (st st' : Os.state) : Prop :=
  Os.nodes st ⊆ Os.nodes st' ∧
  ∀ q, Os.nodes st' !! q = Some Os.File → Os.nodes st !! q = Some Os.File.

(** The five lines [setup_project_directory] prints about its result. *)
Definition report (r : string * string * string) : list string :=
  ["--- フォルダ設定完了 ---";
   "ワーキングディレクトリ: " ++ r.1.1;
   "インプットパス: " ++ r.1.2;
   "アウトプットパス: " ++ r.2;
   "-----------------------"].

(** The directories of the layout, below the project root. *)
Definition layout : list Os.path :=
  [["01_data"]; ["02_document"]; ["03_output"]; ["04_script"];
   ["01_data"; "original_data"]].

(** The error the check of an optional column ends in, if any:
    [if col and col not in df.columns: raise ValueError(...)]. *)
Definition optional_error (D : DataFrame) (what : string) (col : option string)
  : option Py.exn :=
  match col with
  | Some c =>
      if negb (String.eqb c "") && negb (has_column D c)
      then Some (Py.ValueError (missing_column what c)) else None
  | None => None
  end.

(** [plt.show()] closes a run: a run that returned called it once, as
    its last step; in a run that raised it was either not reached, or it
    is the call that raised. *)
Definition show_closes {S A : Type} (r : list event * outcome A * S) : Prop :=
  match r.1.2 with
  | Returned _ =>
      show_calls r.1.1 = [inr ()] ∧ last r.1.1 = Some (Ev plt_show (inr ()))
  | Raised e =>
      show_calls r.1.1 = []
      ∨ show_calls r.1.1 = [inl e] ∧ last r.1.1 = Some (Ev plt_show (inl e))
  end.

(** What a completed run did about the legend.  It read [ax.legend_]
    once.  Without a legend it touched nothing.  With one, it gave the
    entries that [get_texts()] returned the size [tick_fontsize]; it then
    asked for the title, and if the legend has one it asked again and
    gave that text the size [label_fontsize * 0.9]; if the legend has no
    title, no text's size was set. *)
Definition legend_styled (label_fontsize tick_fontsize : Z) (tr : list event)
  : Prop :=
  match legend_reads tr with
  | [false] => texts_reads tr = [] ∧ setp_calls tr = []
               ∧ title_reads tr = [] ∧ fontsize_calls tr = []
  | [true] =>
      ∃ texts,
        texts_reads tr = [texts]
        ∧ setp_calls tr = [(texts, Py.Int tick_fontsize)]
        ∧ (title_reads tr = [None] ∧ fontsize_calls tr = []
           ∨ ∃ t t',
               title_reads tr = [Some t; Some t']
               ∧ fontsize_calls tr
                 = [(t', Py.Mul (Py.Int label_fontsize) (Py.Float "0.9"))])
  | _ => False
  end.

(** ** More data for the examples *)

Module Cases.

(** A project directory [/p] in which [03_output] is a plain file. *)
Definition blocked : Os.state :=
  {| Os.nodes := {[ ["p"] := Os.Dir; ["p"; "03_output"] := Os.File ]};
     Os.cwd := [];
     Os.stdout := [] |}.

(** The hue a seaborn call is given, when it names no column of the
    data: seaborn refuses such a hue. *)
Definition unknown_hue {R : Type} (c : call R) : option string :=
  match c with
  | sns_jointplot data _ _ (Some hue) _ _
  | sns_barplot data _ _ (Some hue) _ _ =>
      if has_column data hue then None else Some hue
  | _ => None
  end.

(** The stand-in, made to check the hue the way seaborn does. *)
Definition strict : library StandIn.world :=
  {| answer := λ R c w,
       match unknown_hue c with
       | Some hue =>
           (inl (Py.ValueError
                   ("Could not interpret value `" ++ hue ++ "` for `hue`. "
                      ++ "An entry with this name does not appear in `data`.")),
            w)
       | None => StandIn.respond c w
       end |}.

End Cases.

(** * Properties *)

Lemma string_app_assoc (s1 s2 s3 : string) : (s1 ++ s2) ++ s3 = s1 ++ (s2 ++ s3).
Proof.
  induction s1 as [|a s1 IH]; [reflexivity|].
  change (String a ((s1 ++ s2) ++ s3) = String a (s1 ++ (s2 ++ s3))).
  by rewrite IH.
Qed.

(** ** Column validation *)

Section validation.

Context (D : DataFrame).

Lemma has_column_true (col : string) : has_column D col = true ↔ col ∈ columns D.
Proof. unfold has_column. apply bool_decide_eq_true. Qed.

Lemma has_column_false (col : string) : has_column D col = false ↔ col ∉ columns D.
Proof. unfold has_column. apply bool_decide_eq_false. Qed.

Lemma getitem_has_column (col : string) (s : Series) :
  getitem D col = inr s → has_column D col = true.
Proof.
  rewrite has_column_true. unfold columns.
  induction D as [|[name s'] df IH]; simpl; [discriminate|].
  destruct (String.eqb_spec name col) as [->|Hne]; intros H.
  - left.
  - right. auto.
Qed.

Lemma missing_column_names (what col : string) :
  Py.names (missing_column what col) col.
Proof.
  exists ("指定された" ++ what ++ " "), " がDataFrameに存在しません。".
  unfold missing_column.
  rewrite !string_app_assoc. reflexivity.
Qed.

Lemma raise_without_effect {A : Type} (e : Py.exn) :
  raises_without_effect (A := A) (Raise e) e.
Proof. intros S L s. reflexivity. Qed.

(** The loop over the required columns stops at the first one missing. *)
Lemma check_columns_missing (what : string) (cols : list string) (C : string) :
  C ∉ columns D → C ∈ cols →
  ∃ col, col ∈ cols ∧ (col ∉ columns D) ∧
    check_columns D what cols = Raise (Py.ValueError (missing_column what col)).
Proof.
  intros HC. induction cols as [|c cols IH]; intros Hin.
  - by apply elem_of_nil in Hin.
  - simpl. destruct (has_column D c) eqn:Hc.
    + apply elem_of_cons in Hin as [->|Hin].
      * apply has_column_true in Hc. contradiction.
      * destruct (IH Hin) as (col & ? & ? & ?).
        exists col. split; [by right|done].
    + exists c. split; [by left|]. split; [by apply has_column_false|done].
Qed.

Lemma check_columns_present (what : string) (cols : list string) :
  Forall (λ c, c ∈ columns D) cols → check_columns D what cols = Ret ().
Proof.
  induction 1 as [|c cols Hc _ IH]; simpl; [done|].
  apply has_column_true in Hc. by rewrite Hc.
Qed.

Lemma check_optional_missing (what C : string) :
  C ∉ columns D → C ≠ "" →
  check_optional D what (Some C) = Raise (Py.ValueError (missing_column what C)).
Proof.
  intros HC%has_column_false HE. unfold check_optional. rewrite HC. simpl.
  by destruct (String.eqb_spec C "").
Qed.

(** The loop either passes or stops at a column that is missing. *)
Lemma check_columns_outcome (what : string) (cols : list string) :
  check_columns D what cols = Ret ()
  ∨ ∃ col, col ∈ cols ∧ (col ∉ columns D) ∧
      check_columns D what cols = Raise (Py.ValueError (missing_column what col)).
Proof.
  induction cols as [|c cols IH]; simpl; [by left|].
  destruct (has_column D c) eqn:Hc.
  - destruct IH as [?|(col & ? & ? & ?)]; [by left|].
    right. exists col. split; [by right|done].
  - right. exists c. split; [by left|]. split; [by apply has_column_false|done].
Qed.

End validation.

Lemma raises_missing {A B : Type} (D : DataFrame) (what col : string)
    (f : A → prog B) :
  col ∉ columns D →
  raises_missing_column D
    (bind (Raise (Py.ValueError (missing_column what col))) f) col.
Proof.
  intros Hno. split; [done|]. exists (missing_column what col).
  split; [apply missing_column_names|]. apply raise_without_effect.
Qed.

(** C1.  For a dataset [D] and a name [C] that is not one of its columns,
    each plotting function called with [C] as a required column
    ([x_col]/[y_col], [feature_col], [categorical_col]/[feature_col],
    [categorical_col1]/[categorical_col2]) raises a [ValueError] whose
    message quotes a column that was asked for and that [D] lacks (the
    first one in the order of the checks, so [C] itself unless an earlier
    one is missing as well), and does so before any library is called: no
    figure is created, nothing is aggregated, nothing is drawn.  The same
    holds when a non-empty [C] is passed as [hue_feature] or
    [value_col]. *)
Theorem missing_column_raises_before_rendering (D : DataFrame) (C : string) :
  C ∉ columns D →
  (∀ x_col y_col hue_feature kind palette reg_line
     title_fontsize label_fontsize tick_fontsize variable_labels,
     C ∈ [x_col; y_col] ∨ (C ≠ "" ∧ hue_feature = Some C) →
     ∃ col, (col ∈ [x_col; y_col] ∨ hue_feature = Some col) ∧
       raises_missing_column D
         (eda_scatter_plot D x_col y_col hue_feature kind palette reg_line
            title_fontsize label_fontsize tick_fontsize variable_labels) col)
  ∧ (∀ feature_col hue_feature palette title show_points
       title_fontsize label_fontsize tick_fontsize variable_labels,
       C = feature_col ∨ (C ≠ "" ∧ hue_feature = Some C) →
       ∃ col, (col = feature_col ∨ hue_feature = Some col) ∧
         raises_missing_column D
           (eda_violin_plot D feature_col hue_feature palette title
              show_points title_fontsize label_fontsize tick_fontsize
              variable_labels) col)
  ∧ (∀ categorical_col feature_col hue_feature palette title
       title_fontsize label_fontsize tick_fontsize show_error_bars
       variable_labels,
       C ∈ [categorical_col; feature_col] ∨ (C ≠ "" ∧ hue_feature = Some C) →
       ∃ col, (col ∈ [categorical_col; feature_col] ∨ hue_feature = Some col) ∧
         raises_missing_column D
           (eda_bar_plot D categorical_col feature_col hue_feature palette
              title title_fontsize label_fontsize tick_fontsize
              show_error_bars variable_labels) col)
  ∧ (∀ categorical_col1 categorical_col2 value_col agg_func palette title
       title_fontsize label_fontsize tick_fontsize cbar_label_fontsize
       annot fmt linewidths linecolor variable_labels,
       C ∈ [categorical_col1; categorical_col2]
       ∨ (C ≠ "" ∧ value_col = Some C) →
       ∃ col, (col ∈ [categorical_col1; categorical_col2]
               ∨ value_col = Some col) ∧
         raises_missing_column D
           (eda_heatmap_crosstab D categorical_col1 categorical_col2
              value_col agg_func palette title title_fontsize
              label_fontsize tick_fontsize cbar_label_fontsize annot fmt
              linewidths linecolor variable_labels) col).
Proof.
  intros HC. split_and!.
  - intros x_col y_col hue_feature * Hin.
    unfold eda_scatter_plot, mbind, prog_bind.
    destruct (check_columns_outcome D "列" [x_col; y_col])
      as [Hok|(col & Hcol & Hno & Hraise)].
    + destruct Hin as [Hin|[HE ->]].
      { destruct (check_columns_missing D "列" _ C HC Hin) as (? & _ & _ & Hr).
        congruence. }
      rewrite Hok. cbn [bind]. rewrite (check_optional_missing D _ C HC HE).
      exists C. split; [by right|]. by apply raises_missing.
    + rewrite Hraise. exists col. split; [by left|]. by apply raises_missing.
  - intros feature_col hue_feature * Hin.
    unfold eda_violin_plot, mbind, prog_bind.
    destruct (check_columns_outcome D "列" [feature_col])
      as [Hok|(col & Hcol%list_elem_of_singleton & Hno & Hraise)].
    + destruct Hin as [->|[HE ->]].
      { destruct (check_columns_missing D "列" [feature_col] feature_col HC)
          as (? & _ & _ & Hr); [by left|congruence]. }
      rewrite Hok. cbn [bind]. rewrite (check_optional_missing D _ C HC HE).
      exists C. split; [by right|]. by apply raises_missing.
    + subst col. rewrite Hraise. exists feature_col.
      split; [by left|]. by apply raises_missing.
  - intros categorical_col feature_col hue_feature * Hin.
    unfold eda_bar_plot, mbind, prog_bind.
    destruct (check_columns_outcome D "カテゴリ列" [categorical_col])
      as [Hok1|(col & Hcol%list_elem_of_singleton & Hno & Hraise)].
    2:{ subst col. rewrite Hraise. exists categorical_col.
        split; [left; by left|]. by apply raises_missing. }
    rewrite Hok1. cbn [bind].
    destruct (check_columns_outcome D "特徴量列" [feature_col])
      as [Hok2|(col & Hcol%list_elem_of_singleton & Hno & Hraise)].
    2:{ subst col. rewrite Hraise. exists feature_col.
        split; [left; right; by left|]. by apply raises_missing. }
    rewrite Hok2. cbn [bind].
    destruct Hin as [[->|Hin]%elem_of_cons|[HE ->]].
    + destruct (check_columns_missing D "カテゴリ列" [categorical_col]
                  categorical_col HC) as (? & _ & _ & Hr); [by left|congruence].
    + apply list_elem_of_singleton in Hin as ->.
      destruct (check_columns_missing D "特徴量列" [feature_col]
                  feature_col HC) as (? & _ & _ & Hr); [by left|congruence].
    + rewrite (check_optional_missing D _ C HC HE).
      exists C. split; [by right|]. by apply raises_missing.
  - intros categorical_col1 categorical_col2 value_col * Hin.
    unfold eda_heatmap_crosstab, mbind, prog_bind.
    destruct (check_columns_outcome D "カテゴリ列" [categorical_col1; categorical_col2])
      as [Hok|(col & Hcol & Hno & Hraise)].
    + destruct Hin as [Hin|[HE ->]].
      { destruct (check_columns_missing D "カテゴリ列" _ C HC Hin)
          as (? & _ & _ & Hr). congruence. }
      rewrite Hok. cbn [bind]. rewrite (check_optional_missing D _ C HC HE).
      exists C. split; [by right|]. by apply raises_missing.
    + rewrite Hraise. exists col. split; [by left|]. by apply raises_missing.
Qed.

Lemma missing_column_raises_before_rendering_witness :
  ("zz" ∉ columns Demo.df) ∧
  ∃ col, (col = "zz" ∨ Some "b" = Some col) ∧
    raises_missing_column Demo.df
      (eda_violin_plot Demo.df "zz" (Some "b") None None true 14 12 10
         Demo.labels) col.
Proof.
  assert (H : "zz" ∉ columns Demo.df) by (by apply has_column_false).
  split; [exact H|].
  apply (missing_column_raises_before_rendering Demo.df "zz" H). by left.
Defined.

(** ** Runs *)

(** Destructs, one after the other, the answers a run depends on. *)
Ltac run_cases H :=
  repeat (cbn in H;
    match type of H with
    | context [answer ?L ?c ?s] => destruct (answer L c s) as [[?|?] ?] eqn:?
    | context [lift ?r] => destruct r eqn:?
    | context [match ?x with Some _ => _ | None => _ end] => destruct x eqn:?
    | context [if ?b then _ else _] => destruct b eqn:?
    end).

(** The trace of a run whose equation is [H], made explicit. *)
Ltac trace_of H tr :=
  apply (f_equal (λ x, x.1.1)) in H; cbn in H; subst tr.

Lemma check_columns_cases (D : DataFrame) (what : string) (cols : list string) :
  check_columns D what cols = Ret () ∨
  ∃ e, check_columns D what cols = Raise e.
Proof.
  induction cols as [|c cols IH]; simpl; [by left|].
  destruct (has_column D c); [done|]. right. eauto.
Qed.

Lemma check_optional_cases (D : DataFrame) (what : string) (col : option string) :
  check_optional D what col = Ret () ∨
  ∃ e, check_optional D what col = Raise e.
Proof.
  unfold check_optional. destruct col as [c|]; [|by left].
  destruct (Py.truthy (Some c) && negb (has_column D c)); [right; eauto|by left].
Qed.

(** C8.  In every run of [eda_scatter_plot] in which the joint plot [g]
    was created, [sns.regplot] is asked for a regression line, on the
    joint axes of [g] and once, if and only if [reg_line] is true and
    [kind] is not ['reg']; for [kind = 'reg'] the program does not depend
    on [reg_line] at all. *)
Theorem regression_overlay_iff (D : DataFrame) (x_col y_col : string)
    (hue_feature : option string) (kind : string) (palette : option string)
    (reg_line : bool) (title_fontsize label_fontsize tick_fontsize : Z)
    (variable_labels : LabelMap) :
  (∀ (S : Type) (L : library S) (s s' : S) (tr : list event)
     (o : outcome ()) (g : JointGrid),
     run L (eda_scatter_plot D x_col y_col hue_feature kind palette reg_line
              title_fontsize label_fontsize tick_fontsize variable_labels) s
       = (tr, o, s') →
     joint_grid tr = Some g →
     regplot_axes tr =
       (if reg_line && negb (String.eqb kind "reg") then [ax_joint g] else [])
     ∧ (ax_joint g ∈ regplot_axes tr ↔ reg_line = true ∧ kind ≠ "reg"))
  ∧ eda_scatter_plot D x_col y_col hue_feature "reg" palette reg_line
      title_fontsize label_fontsize tick_fontsize variable_labels
    = eda_scatter_plot D x_col y_col hue_feature "reg" palette (negb reg_line)
        title_fontsize label_fontsize tick_fontsize variable_labels.
Proof.
  split.
  - intros S L s s' tr o g H Hg.
    assert (Hreg : regplot_axes tr =
      (if reg_line && negb (String.eqb kind "reg") then [ax_joint g] else [])).
    { revert H. unfold eda_scatter_plot, mbind, prog_bind.
      destruct (check_columns_cases D "列" [x_col; y_col]) as [->|[e ->]];
        [|intros [= <- _ _]; discriminate].
      destruct (check_optional_cases D "hue列" hue_feature) as [->|[e ->]];
        [|intros [= <- _ _]; discriminate].
      intros H.
      run_cases H; trace_of H tr; try discriminate;
        injection Hg as <-; reflexivity. }
    split; [exact Hreg|]. rewrite Hreg.
    destruct reg_line, (String.eqb_spec kind "reg"); simpl; split.
    all: try (intros []%elem_of_nil).
    all: try (intros [? ?]; congruence).
    + done.
    + intros _. left.
  - unfold eda_scatter_plot. simpl. by rewrite !andb_false_r.
Qed.

Lemma regression_overlay_iff_witness :
  ∃ tr o s' g,
    run StandIn.lib
      (eda_scatter_plot Demo.df "a" "v" (Some "b") "scatter" None true 8 6 6
         Demo.labels) StandIn.start = (tr, o, s')
    ∧ joint_grid tr = Some g
    ∧ regplot_axes tr = [ax_joint g].
Proof.
  eexists _, _, _, _.
  split; [vm_compute; reflexivity|].
  split; [vm_compute; reflexivity|].
  refine (proj1 (proj1 (regression_overlay_iff Demo.df "a" "v" (Some "b")
            "scatter" None true 8 6 6 Demo.labels)
            _ StandIn.lib StandIn.start _ _ _ _ _ _)).
  - vm_compute. reflexivity.
  - vm_compute. reflexivity.
Defined.

(** One step of a run. *)
Lemma run_vis {S A R : Type} (L : library S) (c : call R) (k : R → prog A)
    (s s' : S) (tr : list event) (o : outcome A) :
  run L (Vis c k) s = (tr, o, s') →
  (∃ e, answer L c s = (inl e, s') ∧ tr = [Ev c (inl e)] ∧ o = Raised e)
  ∨ (∃ r s1 tr', answer L c s = (inr r, s1) ∧ tr = Ev c (inr r) :: tr'
       ∧ run L (k r) s1 = (tr', o, s')).
Proof.
  simpl. destruct (answer L c s) as [[e|r] s1].
  - intros [= <- <- <-]. left. eauto.
  - destruct (run L (k r) s1) as [[tr' o'] s''] eqn:Hk.
    intros [= <- <- <-]. right. eauto 10.
Qed.

Lemma check_optional_empty (D : DataFrame) (what : string) :
  check_optional D what (Some "") = Ret ().
Proof. reflexivity. Qed.

(** C10.  The optional column parameters are looked up only when truthy.
    With [hue_feature = ''] (or [value_col = ''] for the heatmap) the
    check before rendering looks at the required columns alone, for
    every dataset: the empty name is never reported as missing on its own
    account.  The violin plot and the heatmap then treat [''] exactly as
    [None]: their programs are the same, and the heatmap asks
    [pd.crosstab] for the plain frequency table of the two columns, with
    neither values nor an aggregation function, and draws the table it
    gets.  The scatter and the bar plot hand the empty name on to seaborn
    as the hue; if seaborn refuses it, that error is the outcome of the
    call, after the check and (for the bar plot) after [plt.figure()]. *)
Theorem empty_optional_column_is_not_checked {S : Type} (L : library S)
    (D : DataFrame)
    (x_col y_col feature_col categorical_col categorical_col1 categorical_col2
       kind agg_func fmt linecolor : string)
    (palette title : option string)
    (reg_line show_points show_error_bars annot : bool)
    (title_fontsize label_fontsize tick_fontsize cbar_label_fontsize : Z)
    (linewidths : Py.number) (variable_labels : LabelMap) :
  let scatter :=
    eda_scatter_plot D x_col y_col (Some "") kind palette reg_line
      title_fontsize label_fontsize tick_fontsize variable_labels in
  let violin hue_feature :=
    eda_violin_plot D feature_col hue_feature palette title show_points
      title_fontsize label_fontsize tick_fontsize variable_labels in
  let bar :=
    eda_bar_plot D categorical_col feature_col (Some "") palette title
      title_fontsize label_fontsize tick_fontsize show_error_bars
      variable_labels in
  let heatmap value_col :=
    eda_heatmap_crosstab D categorical_col1 categorical_col2 value_col
      agg_func palette title title_fontsize label_fontsize tick_fontsize
      cbar_label_fontsize annot fmt linewidths linecolor variable_labels in
  (* the check looks at the required columns alone *)
  (validation_error scatter
   = (if has_column D x_col then
        if has_column D y_col then None
        else Some (Py.ValueError (missing_column "列" y_col))
      else Some (Py.ValueError (missing_column "列" x_col)))
   ∧ validation_error (violin (Some ""))
     = (if has_column D feature_col then None
        else Some (Py.ValueError (missing_column "列" feature_col)))
   ∧ validation_error bar
     = (if has_column D categorical_col then
          if has_column D feature_col then None
          else Some (Py.ValueError (missing_column "特徴量列" feature_col))
        else Some (Py.ValueError (missing_column "カテゴリ列" categorical_col)))
   ∧ validation_error (heatmap (Some ""))
     = (if has_column D categorical_col1 then
          if has_column D categorical_col2 then None
          else Some (Py.ValueError (missing_column "カテゴリ列" categorical_col2))
        else Some (Py.ValueError (missing_column "カテゴリ列" categorical_col1))))
  (* the violin plot and the heatmap treat '' as None *)
  ∧ violin (Some "") = violin None
  ∧ heatmap (Some "") = heatmap None
  (* the heatmap for '' asks for and draws the frequency table *)
  ∧ (∀ index columns (s s' : S) tr o,
       getitem D categorical_col1 = inr index →
       getitem D categorical_col2 = inr columns →
       run L (heatmap (Some "")) s = (tr, o, s') →
       ((∃ e, tr = [Ev plt_figure (inl e)] ∧ o = Raised e)
        ∨ crosstab_requests tr = [(index, columns, None, None)])
       ∧ (o = Returned () →
          ∃ t, crosstab_results tr = [t] ∧ heatmap_tables tr = [t]))
  (* the scatter and the bar plot hand '' on to seaborn as the hue *)
  ∧ (∀ (s s' : S) tr o,
       x_col ∈ columns D → y_col ∈ columns D →
       run L scatter s = (tr, o, s') →
       ∃ r tr',
         tr = Ev (sns_jointplot D x_col y_col (Some "") kind palette) r :: tr'
         ∧ ∀ e, r = inl e → tr' = [] ∧ o = Raised e)
  ∧ (∀ (s s' : S) tr o,
       categorical_col ∈ columns D → feature_col ∈ columns D →
       run L bar s = (tr, o, s') →
       (∃ e, tr = [Ev plt_figure (inl e)] ∧ o = Raised e)
       ∨ ∃ f r tr',
           tr = Ev plt_figure (inr f)
                  :: Ev (sns_barplot D categorical_col feature_col (Some "")
                           palette
                           (if show_error_bars then Some ("ci", 95) else None))
                       r :: tr'
           ∧ ∀ e, r = inl e → tr' = [] ∧ o = Raised e).
Proof.
  intros scatter violin bar heatmap. split_and!.
  - unfold scatter, eda_scatter_plot, mbind, prog_bind. simpl.
    by destruct (has_column D x_col), (has_column D y_col).
  - unfold violin, eda_violin_plot, mbind, prog_bind. simpl.
    by destruct (has_column D feature_col).
  - unfold bar, eda_bar_plot, mbind, prog_bind. simpl.
    by destruct (has_column D categorical_col), (has_column D feature_col).
  - unfold heatmap, eda_heatmap_crosstab, mbind, prog_bind. simpl.
    by destruct (has_column D categorical_col1), (has_column D categorical_col2).
  - reflexivity.
  - unfold heatmap, eda_heatmap_crosstab, build_crosstab. simpl.
    destruct variable_labels; reflexivity.
  - intros index cols s s' tr o H1 H2.
    unfold heatmap, eda_heatmap_crosstab, build_crosstab, mbind, prog_bind.
    rewrite check_columns_present.
    2:{ repeat constructor; eapply has_column_true, getitem_has_column; eauto. }
    rewrite check_optional_empty, H1, H2. cbn [bind Py.truthy String.eqb negb lift].
    intros H. split.
    + run_cases H; injection H as <- <- <-; first [left; by eauto | by right].
    + intros ->. run_cases H; try discriminate; trace_of H tr.
      all: eexists; split; reflexivity.
  - intros s s' tr o Hx Hy.
    unfold scatter, eda_scatter_plot, mbind, prog_bind.
    rewrite check_columns_present by (by repeat constructor).
    rewrite check_optional_empty. cbn [bind].
    intros [(e & _ & -> & ->)|(r & s1 & tr' & _ & -> & _)]%run_vis.
    + eexists _, _. split; [done|]. by intros ? [= <-].
    + eexists _, _. split; [done|]. by intros ? [=].
  - intros s s' tr o Hx Hy.
    unfold bar, eda_bar_plot, mbind, prog_bind.
    rewrite !check_columns_present by (by repeat constructor).
    rewrite check_optional_empty. cbn [bind].
    intros [(e & _ & -> & ->)|(f & s1 & tr1 & _ & -> & H)]%run_vis;
      [left; by eauto|right].
    apply run_vis in H as [(e & _ & -> & ->)|(r & s2 & tr' & _ & -> & _)].
    + eexists _, _, _. split; [done|]. by intros ? [= <-].
    + eexists _, _, _. split; [done|]. by intros ? [=].
Qed.

Lemma empty_optional_column_is_not_checked_witness :
  let index := [Str "x"; Str "y"; Str "x"; Str "y"] in
  let columns := [Str "p"; Str "q"; Str "q"; NA] in
  getitem Demo.df "a" = inr index
  ∧ getitem Demo.df "b" = inr columns
  ∧ (∃ tr s',
       run StandIn.lib
         (eda_heatmap_crosstab Demo.df "a" "b" (Some "") "mean" None None
            14 12 10 12 true ".0f" (Py.Float "0.5") "white" Demo.labels)
         StandIn.start = (tr, Returned (), s')
       ∧ crosstab_requests tr = [(index, columns, None, None)]
       ∧ heatmap_tables tr = [Pandas.crosstab index columns])
  ∧ (∃ e s',
       run Cases.strict
         (eda_bar_plot Demo.df "a" "v" (Some "") None None 14 12 10 true
            Demo.labels) StandIn.start
       = ([Ev plt_figure (inr 0%nat);
           Ev (sns_barplot Demo.df "a" "v" (Some "") None (Some ("ci", 95)))
             (inl e)],
          Raised e, s')).
Proof.
  intros index columns.
  assert (Ha : getitem Demo.df "a" = inr index) by reflexivity.
  assert (Hb : getitem Demo.df "b" = inr columns) by reflexivity.
  split; [exact Ha|]. split; [exact Hb|]. split.
  - eexists _, _. split; [vm_compute; reflexivity|].
    destruct (empty_optional_column_is_not_checked StandIn.lib Demo.df
                "a" "v" "v" "a" "a" "b" "scatter" "mean" ".0f" "white" None
                None true true true true 14 12 10 12 (Py.Float "0.5")
                Demo.labels) as (_ & _ & _ & Hheat & _ & _).
    edestruct (Hheat index columns StandIn.start) as [[[e [He _]]|Hreq] _];
      [exact Ha|exact Hb|vm_compute; reflexivity|discriminate He|].
    split; [exact Hreq|reflexivity].
  - eexists _, _. vm_compute. reflexivity.
Defined.

(** C4.  Whenever [eda_heatmap_crosstab] is called with a value column
    (a non-empty [value_col]) and returns, the label the colorbar carries
    in the end is the literal ['Count'], whatever the value column, the
    aggregation function and the label map are: the label given to
    [sns.heatmap] through [cbar_kws] is replaced by [cbar.set_label]. *)
Theorem colorbar_label_is_count {S : Type} (L : library S) (s s' : S)
    (D : DataFrame) (categorical_col1 categorical_col2 value_col agg_func : string)
    (palette title : option string)
    (title_fontsize label_fontsize tick_fontsize cbar_label_fontsize : Z)
    (annot : bool) (fmt : string) (linewidths : Py.number)
    (linecolor : string) (variable_labels : LabelMap) (tr : list event) :
  value_col ≠ "" →
  run L (eda_heatmap_crosstab D categorical_col1 categorical_col2
           (Some value_col) agg_func palette title title_fontsize
           label_fontsize tick_fontsize cbar_label_fontsize annot fmt
           linewidths linecolor variable_labels) s
    = (tr, Returned (), s') →
  colorbar_label tr = Some "Count".
Proof.
  intros Hv. unfold eda_heatmap_crosstab, build_crosstab, mbind, prog_bind.
  destruct (check_columns_cases D "カテゴリ列" [categorical_col1; categorical_col2])
    as [->|[e ->]]; [|intros [=]].
  destruct (check_optional_cases D "値の列" (Some value_col)) as [->|[e ->]];
    [|intros [=]].
  intros H.
  run_cases H; try discriminate; trace_of H tr; reflexivity.
Qed.

Lemma colorbar_label_is_count_witness :
  "v" ≠ "" ∧
  ∃ tr s',
    run StandIn.lib
      (eda_heatmap_crosstab Demo.df "a" "b" (Some "v") "count" None None
         14 12 10 12 true ".0f" (Py.Float "0.5") "white" Demo.labels)
      StandIn.start = (tr, Returned (), s')
    ∧ colorbar_label tr = Some "Count".
Proof.
  assert (Hv : "v" ≠ "") by discriminate.
  split; [exact Hv|].
  eexists _, _. split; [vm_compute; reflexivity|].
  eapply (colorbar_label_is_count StandIn.lib StandIn.start _ Demo.df "a" "b"
            "v" "count" None None 14 12 10 12 true ".0f" (Py.Float "0.5")
            "white" Demo.labels _ Hv).
  vm_compute. reflexivity.
Defined.



(** ** The caller's objects *)

Section by_reference.

Lemma reads_only_bind {A B : Type} (p : ByRef.code A) (f : A → ByRef.code B) :
  ByRef.reads_only p → (∀ a, ByRef.reads_only (f a)) →
  ByRef.reads_only (ByRef.bind p f).
Proof.
  intros Hp Hf. induction Hp; simpl; auto; constructor; auto.
Qed.

Lemma reads_only_of_prog {A : Type} (p : prog A) :
  ByRef.reads_only (ByRef.of_prog p).
Proof. induction p; simpl; constructor; auto. Qed.

Lemma reads_only_check_columns (what : string) (cols : list string) :
  ByRef.reads_only (ByRef.check_columns what cols).
Proof.
  induction cols as [|c cols IH]; simpl; constructor.
  intros m. simpl. destruct (has_column _ _); [done|constructor].
Qed.

Lemma reads_only_check_optional (what : string) (col : option string) :
  ByRef.reads_only (ByRef.check_optional what col).
Proof.
  destruct col as [c|]; simpl; [|constructor].
  destruct (negb _); constructor.
  intros m. simpl. destruct (has_column _ _); constructor.
Qed.

(** Goes through a body piece by piece and finds no assignment. *)
Ltac no_assignment :=
  unfold ByRef.lib, ByRef.label, ByRef.label_optional, ByRef.the_df,
    ByRef.df_getitem, mbind, ByRef.code_bind;
  repeat first
    [ apply reads_only_check_columns
    | apply reads_only_check_optional
    | apply reads_only_of_prog
    | apply reads_only_bind; [|intros]
    | apply ByRef.reads_only_Look; intros; cbn
    | apply ByRef.reads_only_Call; intros; cbn
    | apply ByRef.reads_only_Done
    | apply ByRef.reads_only_Fail
    | match goal with
      | |- ByRef.reads_only (let '(_, _) := ?x in _) => destruct x
      | |- ByRef.reads_only (if ?b then _ else _) => destruct b
      | |- ByRef.reads_only (match ?x with _ => _ end) => destruct x
      end ].

(** A body without an assignment writes nothing, whatever the libraries
    do; the memory changes only if a library changes it. *)
Lemma exec_reads_only {W A : Type} (L : library (memory * W))
    (p : ByRef.code A) (s s' : memory * W) (tr : list ByRef.action)
    (o : outcome A) :
  ByRef.reads_only p → ByRef.exec L p s = (tr, o, s') → untouched L s s' tr.
Proof.
  intros Hp. revert s s' tr o. unfold untouched.
  induction Hp as [a|e|k _ IH|R c k _ IH]; intros s s' tr o; simpl.
  - by intros [= <- _ <-].
  - by intros [= <- _ <-].
  - apply IH.
  - destruct (answer L c s) as [[e|r] s1] eqn:Hc.
    + intros [= <- _ <-]. split; [done|]. intros HL.
      specialize (HL R c s). by rewrite Hc in HL.
    + destruct (ByRef.exec L (k r) s1) as [[tr1 o1] s2] eqn:Hk.
      intros [= <- <- <-]. destruct (IH _ _ _ _ _ Hk) as [Hw Hs].
      split; [done|]. intros HL. rewrite (Hs HL).
      specialize (HL R c s). by rewrite Hc in HL.
Qed.

(** An assignment, by contrast, shows in the run and in the memory. *)
Lemma exec_Assign {W : Type} (L : library (memory * W)) (m : memory)
    (s : memory * W) :
  ByRef.exec L (ByRef.Assign m (ByRef.Done ())) s
  = ([ByRef.Wrote m], Returned (), (m, s.2)).
Proof. reflexivity. Qed.

Lemma reads_only_scatter x_col y_col hue_feature kind palette reg_line
    title_fontsize label_fontsize tick_fontsize :
  ByRef.reads_only
    (ByRef.eda_scatter_plot x_col y_col hue_feature kind palette reg_line
       title_fontsize label_fontsize tick_fontsize).
Proof. unfold ByRef.eda_scatter_plot. no_assignment. Qed.

Lemma reads_only_violin feature_col hue_feature palette title show_points
    title_fontsize label_fontsize tick_fontsize :
  ByRef.reads_only
    (ByRef.eda_violin_plot feature_col hue_feature palette title show_points
       title_fontsize label_fontsize tick_fontsize).
Proof. unfold ByRef.eda_violin_plot. no_assignment. Qed.

Lemma reads_only_bar categorical_col feature_col hue_feature palette title
    title_fontsize label_fontsize tick_fontsize show_error_bars :
  ByRef.reads_only
    (ByRef.eda_bar_plot categorical_col feature_col hue_feature palette
       title title_fontsize label_fontsize tick_fontsize show_error_bars).
Proof. unfold ByRef.eda_bar_plot. no_assignment. Qed.

Lemma reads_only_heatmap categorical_col1 categorical_col2 value_col agg_func
    palette title title_fontsize label_fontsize tick_fontsize
    cbar_label_fontsize annot fmt linewidths linecolor :
  ByRef.reads_only
    (ByRef.eda_heatmap_crosstab categorical_col1 categorical_col2 value_col
       agg_func palette title title_fontsize label_fontsize tick_fontsize
       cbar_label_fontsize annot fmt linewidths linecolor).
Proof.
  unfold ByRef.eda_heatmap_crosstab, ByRef.build_crosstab. no_assignment.
Qed.

(** *** The two forms of the functions agree *)

Lemma same_refl {A : Type} (p : prog A) : same p p.
Proof. induction p; constructor; auto. Qed.

Lemma run_same {S A : Type} (L : library S) (p q : prog A) (s : S) :
  same p q → run L p s = run L q s.
Proof.
  intros Hpq. revert s. induction Hpq as [a|e|R c k k' _ IH]; intros s; simpl;
    [done|done|].
  destruct (answer L c s) as [[e|r] s1]; [done|]. by rewrite IH.
Qed.

Lemma at_memory_of_prog {A B : Type} (m : memory) (p : prog A)
    (f : A → ByRef.code B) (g : A → prog B) :
  (∀ a, same (ByRef.at_memory (f a) m) (g a)) →
  same (ByRef.at_memory (ByRef.bind (ByRef.of_prog p) f) m) (bind p g).
Proof. intros Hfg. induction p; simpl; [apply Hfg|constructor..]; auto. Qed.

Lemma at_memory_check_columns {A : Type} (m : memory) (what : string)
    (cols : list string) (f : unit → ByRef.code A) (g : unit → prog A) :
  (∀ u, same (ByRef.at_memory (f u) m) (g u)) →
  same (ByRef.at_memory (ByRef.bind (ByRef.check_columns what cols) f) m)
    (bind (check_columns (mem_df m) what cols) g).
Proof.
  intros Hfg. induction cols as [|c cols IH]; simpl; [apply Hfg|].
  destruct (has_column (mem_df m) c); [apply IH|constructor].
Qed.

Lemma at_memory_check_optional {A : Type} (m : memory) (what : string)
    (col : option string) (f : unit → ByRef.code A) (g : unit → prog A) :
  (∀ u, same (ByRef.at_memory (f u) m) (g u)) →
  same (ByRef.at_memory (ByRef.bind (ByRef.check_optional what col) f) m)
    (bind (check_optional (mem_df m) what col) g).
Proof.
  intros Hfg. destruct col as [c|]; [|apply Hfg].
  unfold ByRef.check_optional, check_optional.
  destruct (Py.truthy (Some c)); [|apply Hfg]. simpl.
  destruct (has_column (mem_df m) c); simpl; [apply Hfg|constructor].
Qed.

(** While the memory stays as it is, a run of a body without an
    assignment is the run of the body with its looks answered. *)
Lemma exec_at_memory {W A : Type} (L : library (memory * W))
    (p : ByRef.code A) (s s' : memory * W) (tr : list ByRef.action)
    (o : outcome A) :
  read_only L → ByRef.reads_only p → ByRef.exec L p s = (tr, o, s') →
  run L (ByRef.at_memory p s.1) s = (ByRef.calls tr, o, s').
Proof.
  intros HL Hp. revert s s' tr o.
  induction Hp as [a|e|k _ IH|R c k _ IH]; intros s s' tr o; simpl.
  - by intros [= <- <- <-].
  - by intros [= <- <- <-].
  - apply IH.
  - pose proof (HL R c s) as Hs.
    destruct (answer L c s) as [[e|r] s1] eqn:Hc; simpl in Hs.
    + by intros [= <- <- <-].
    + destruct (ByRef.exec L (k r) s1) as [[tr1 o1] s2] eqn:Hk.
      intros [= <- <- <-]. rewrite <- Hs. by rewrite (IH _ _ _ _ _ Hk).
Qed.

(** Steps through a body with its looks answered. *)
Ltac same_steps :=
  unfold mbind, ByRef.code_bind, prog_bind;
  repeat first
    [ apply at_memory_check_columns; intros _
    | apply at_memory_check_optional; intros _ ];
  cbn;
  repeat first
    [ apply same_Ret | apply same_Raise
    | apply same_Vis; intros; cbn
    | apply at_memory_of_prog; intros; cbn
    | match goal with
      | |- context [match getitem ?d ?c with _ => _ end] =>
          destruct (getitem d c); cbn
      | |- context [match getitem_optional ?d ?c with _ => _ end] =>
          destruct (getitem_optional d c); cbn
      | |- same (ByRef.at_memory (let '(_, _) := ?x in _) _) _ =>
          destruct x; cbn
      | |- same (ByRef.at_memory (ByRef.bind (if ?b then _ else _) _) _) _ =>
          destruct b; cbn
      | |- same (ByRef.at_memory (if ?b then _ else _) _) _ => destruct b; cbn
      | |- same (ByRef.at_memory
                   (ByRef.bind (match ?x with _ => _ end) _) _) _ =>
          destruct x; cbn
      end ].

(** With its looks at the memory answered, each body is the program of
    the same name, for the dataset and the label map the memory holds. *)
Lemma scatter_same m x_col y_col hue_feature kind palette reg_line
    title_fontsize label_fontsize tick_fontsize :
  same
    (ByRef.at_memory
       (ByRef.eda_scatter_plot x_col y_col hue_feature kind palette reg_line
          title_fontsize label_fontsize tick_fontsize) m)
    (eda_scatter_plot (mem_df m) x_col y_col hue_feature kind palette
       reg_line title_fontsize label_fontsize tick_fontsize
       (mem_variable_labels m)).
Proof. unfold ByRef.eda_scatter_plot, eda_scatter_plot. same_steps. Qed.

Lemma violin_same m feature_col hue_feature palette title show_points
    title_fontsize label_fontsize tick_fontsize :
  same
    (ByRef.at_memory
       (ByRef.eda_violin_plot feature_col hue_feature palette title
          show_points title_fontsize label_fontsize tick_fontsize) m)
    (eda_violin_plot (mem_df m) feature_col hue_feature palette title
       show_points title_fontsize label_fontsize tick_fontsize
       (mem_variable_labels m)).
Proof. unfold ByRef.eda_violin_plot, eda_violin_plot. same_steps. Qed.

Lemma bar_same m categorical_col feature_col hue_feature palette title
    title_fontsize label_fontsize tick_fontsize show_error_bars :
  same
    (ByRef.at_memory
       (ByRef.eda_bar_plot categorical_col feature_col hue_feature palette
          title title_fontsize label_fontsize tick_fontsize
          show_error_bars) m)
    (eda_bar_plot (mem_df m) categorical_col feature_col hue_feature
       palette title title_fontsize label_fontsize tick_fontsize
       show_error_bars (mem_variable_labels m)).
Proof. unfold ByRef.eda_bar_plot, eda_bar_plot. same_steps. Qed.

Lemma heatmap_same m categorical_col1 categorical_col2 value_col agg_func
    palette title title_fontsize label_fontsize tick_fontsize
    cbar_label_fontsize annot fmt linewidths linecolor :
  same
    (ByRef.at_memory
       (ByRef.eda_heatmap_crosstab categorical_col1 categorical_col2
          value_col agg_func palette title title_fontsize label_fontsize
          tick_fontsize cbar_label_fontsize annot fmt linewidths linecolor) m)
    (eda_heatmap_crosstab (mem_df m) categorical_col1 categorical_col2
       value_col agg_func palette title title_fontsize label_fontsize
       tick_fontsize cbar_label_fontsize annot fmt linewidths linecolor
       (mem_variable_labels m)).
Proof.
  unfold ByRef.eda_heatmap_crosstab, eda_heatmap_crosstab,
    ByRef.build_crosstab, build_crosstab.
  same_steps.
Qed.

(** Every completed run of the heatmap function asks [pd.crosstab] for
    its table once and draws that table, whatever the libraries do. *)
Lemma heatmap_draws_fresh {W : Type} (L : library (memory * W))
    (s s' : memory * W) (tr : list ByRef.action)
    (categorical_col1 categorical_col2 : string)
    (value_col : option string) (agg_func : string)
    (palette title : option string)
    (title_fontsize label_fontsize tick_fontsize cbar_label_fontsize : Z)
    (annot : bool) (fmt : string) (linewidths : Py.number)
    (linecolor : string) :
  ByRef.exec L
    (ByRef.eda_heatmap_crosstab categorical_col1 categorical_col2 value_col
       agg_func palette title title_fontsize label_fontsize tick_fontsize
       cbar_label_fontsize annot fmt linewidths linecolor) s
  = (tr, Returned (), s') →
  ∃ t, crosstab_results (ByRef.calls tr) = [t]
       ∧ heatmap_tables (ByRef.calls tr) = [t].
Proof.
  unfold ByRef.eda_heatmap_crosstab, ByRef.build_crosstab, ByRef.df_getitem,
    ByRef.check_optional, ByRef.in_columns, ByRef.label, ByRef.label_optional,
    ByRef.lib, mbind, ByRef.code_bind.
  intros H.
  repeat (cbn in H;
    match type of H with
    | context [answer ?L ?c ?s] => destruct (answer L c s) as [[?|?] ?] eqn:?
    | context [match ?x with inl _ => _ | inr _ => _ end] => destruct x eqn:?
    | context [match ?x with Some _ => _ | None => _ end] => destruct x eqn:?
    | context [if ?b then _ else _] => destruct b eqn:?
    end); try discriminate; trace_of H tr; eexists; split; reflexivity.
Qed.

End by_reference.

(** C9.  No plotting function changes what it is handed.  The dataset
    and the label map are objects shared with the caller; each of the
    four bodies only looks at them ([in df.columns], [df[...]], [data=df],
    [variable_labels.get]) and never assigns to them, to an item of
    them, or to a variable of the module.  So in every run, however it
    ends and whatever the libraries do, the function itself writes
    nothing; and when the libraries it calls do not write to these
    objects either, the dataset with its columns and values and the
    label map with its entries are after the call what they were before
    it.  The heatmap's table is obtained anew in every completed call,
    by one call of [pd.crosstab], and is drawn; it is kept nowhere: the
    call writes nothing and returns [None].  For libraries that do not
    write, a call does exactly what the program of the first part does
    for the dataset and the label map in memory. *)
Theorem plotting_leaves_inputs_unchanged {W : Type}
    (L : library (memory * W)) (s s' : memory * W) (tr : list ByRef.action)
    (x_col y_col feature_col categorical_col categorical_col1 categorical_col2
       kind agg_func fmt linecolor : string)
    (hue_feature value_col palette title : option string)
    (reg_line show_points show_error_bars annot : bool)
    (title_fontsize label_fontsize tick_fontsize cbar_label_fontsize : Z)
    (linewidths : Py.number) (o : outcome ()) :
  let df := mem_df s.1 in
  let variable_labels := mem_variable_labels s.1 in
  (ByRef.exec L
     (ByRef.eda_scatter_plot x_col y_col hue_feature kind palette reg_line
        title_fontsize label_fontsize tick_fontsize) s = (tr, o, s') →
   untouched L s s' tr
   ∧ (read_only L →
      run L (eda_scatter_plot df x_col y_col hue_feature kind palette
               reg_line title_fontsize label_fontsize tick_fontsize
               variable_labels) s = (ByRef.calls tr, o, s')))
  ∧ (ByRef.exec L
       (ByRef.eda_violin_plot feature_col hue_feature palette title
          show_points title_fontsize label_fontsize tick_fontsize) s
     = (tr, o, s') →
     untouched L s s' tr
     ∧ (read_only L →
        run L (eda_violin_plot df feature_col hue_feature palette title
                 show_points title_fontsize label_fontsize tick_fontsize
                 variable_labels) s = (ByRef.calls tr, o, s')))
  ∧ (ByRef.exec L
       (ByRef.eda_bar_plot categorical_col feature_col hue_feature palette
          title title_fontsize label_fontsize tick_fontsize show_error_bars) s
     = (tr, o, s') →
     untouched L s s' tr
     ∧ (read_only L →
        run L (eda_bar_plot df categorical_col feature_col hue_feature
                 palette title title_fontsize label_fontsize tick_fontsize
                 show_error_bars variable_labels) s
        = (ByRef.calls tr, o, s')))
  ∧ (ByRef.exec L
       (ByRef.eda_heatmap_crosstab categorical_col1 categorical_col2
          value_col agg_func palette title title_fontsize label_fontsize
          tick_fontsize cbar_label_fontsize annot fmt linewidths linecolor) s
     = (tr, o, s') →
     untouched L s s' tr
     ∧ (read_only L →
        run L (eda_heatmap_crosstab df categorical_col1 categorical_col2
                 value_col agg_func palette title title_fontsize
                 label_fontsize tick_fontsize cbar_label_fontsize annot fmt
                 linewidths linecolor variable_labels) s
        = (ByRef.calls tr, o, s'))
     ∧ (o = Returned () →
        ∃ t, crosstab_results (ByRef.calls tr) = [t]
             ∧ heatmap_tables (ByRef.calls tr) = [t])).
Proof.
  intros df variable_labels. subst df variable_labels. split_and!.
  - intros H. split; [by eapply exec_reads_only, H; apply reads_only_scatter|].
    intros HL. rewrite <- (run_same L _ _ s (scatter_same _ _ _ _ _ _ _ _ _ _)).
    by apply exec_at_memory; [|apply reads_only_scatter|].
  - intros H. split; [by eapply exec_reads_only, H; apply reads_only_violin|].
    intros HL. rewrite <- (run_same L _ _ s (violin_same _ _ _ _ _ _ _ _ _)).
    by apply exec_at_memory; [|apply reads_only_violin|].
  - intros H. split; [by eapply exec_reads_only, H; apply reads_only_bar|].
    intros HL. rewrite <- (run_same L _ _ s (bar_same _ _ _ _ _ _ _ _ _ _)).
    by apply exec_at_memory; [|apply reads_only_bar|].
  - intros H. split_and!.
    + by eapply exec_reads_only, H; apply reads_only_heatmap.
    + intros HL.
      rewrite <- (run_same L _ _ s
                    (heatmap_same _ _ _ _ _ _ _ _ _ _ _ _ _ _ _)).
      by apply exec_at_memory; [|apply reads_only_heatmap|].
    + intros ->. by eapply heatmap_draws_fresh.
Qed.

Lemma plotting_leaves_inputs_unchanged_witness :
  read_only Demo.lib ∧
  ∃ tr s',
    ByRef.exec Demo.lib
      (ByRef.eda_heatmap_crosstab "a" "b" None "count" None None
         14 12 10 12 true ".0f" (Py.Float "0.5") "white")
      (Demo.mem, StandIn.start)
    = (tr, Returned (), s')
    ∧ ByRef.writes tr = []
    ∧ s'.1 = Demo.mem
    ∧ heatmap_tables (ByRef.calls tr)
      = [Pandas.crosstab [Str "x"; Str "y"; Str "x"; Str "y"]
           [Str "p"; Str "q"; Str "q"; NA]].
Proof.
  assert (HL : read_only Demo.lib).
  { intros R c [m w]. simpl. by destruct (StandIn.respond c w). }
  split; [exact HL|].
  eexists _, _. split; [vm_compute; reflexivity|].
  match goal with
  | |- ByRef.writes ?tr0 = [] ∧ ?s0.1 = _ ∧ _ =>
      set (tr := tr0); set (s' := s0)
  end.
  assert (Hrun :
    ByRef.exec Demo.lib
      (ByRef.eda_heatmap_crosstab "a" "b" None "count" None None
         14 12 10 12 true ".0f" (Py.Float "0.5") "white")
      (Demo.mem, StandIn.start) = (tr, Returned (), s'))
    by (vm_compute; reflexivity).
  destruct (plotting_leaves_inputs_unchanged Demo.lib
              (Demo.mem, StandIn.start) s' tr "a" "v" "v" "a" "a" "b"
              "scatter" "count" ".0f" "white" None None None None
              true true true true 14 12 10 12 (Py.Float "0.5")
              (Returned ()))
    as (_ & _ & _ & Hheat).
  destruct (Hheat Hrun) as ([Hw Hm] & _ & _).
  split; [exact Hw|]. split; [exact (Hm HL)|reflexivity].
Defined.

(** ** Label resolution *)

Lemma label_of_spec (m : LabelMap) (i : string) : label_of m i = Spec.resolve m i.
Proof.
  destruct m as [d|]; [|done]. simpl. unfold dict_get.
  case_bool_decide as Hd; simpl; [|done].
  subst d. by rewrite lookup_empty.
Qed.

Lemma label_of_optional_spec (m : LabelMap) (i : string) :
  i ≠ "" → label_of_optional m (Some i) = Some (Spec.resolve m i).
Proof.
  intros Hi. destruct m as [d|]; [|done].
  unfold label_of_optional.
  assert (Py.truthy (Some i) = true) as ->.
  { simpl. by destruct (String.eqb_spec i ""). }
  rewrite andb_true_r. rewrite <- label_of_spec. simpl.
  by destruct (negb (bool_decide (d = ∅))).
Qed.

(** C6, with the one case taken out in which the claim fails.  Resolving
    a required column name returns the map's value for it when the map
    has one and the name itself otherwise, also without a map.  For the
    optional names ([hue_feature], [value_col]) the same holds whenever
    the name is a non-empty string; the empty string and [None] stand for
    "no column" and resolve to themselves without the map being
    consulted.  A name without an entry resolves to itself in both
    forms.  (Both resolvers are functions of the name and the map: the
    same arguments give the same label.) *)
Theorem label_resolution (m : LabelMap) (i : string) :
  label_of m i = Spec.resolve m i
  ∧ (i ≠ "" → label_of_optional m (Some i) = Some (Spec.resolve m i))
  ∧ label_of_optional m (Some "") = Some ""
  ∧ label_of_optional m None = None
  ∧ ((∀ d, m = Some d → d !! i = None) →
     label_of m i = i ∧ label_of_optional m (Some i) = Some i).
Proof.
  split_and!.
  - apply label_of_spec.
  - apply label_of_optional_spec.
  - destruct m as [d|]; [|done].
    unfold label_of_optional. by destruct (dict_truthy (Some d)).
  - by destruct m.
  - intros Hnone.
    assert (Hres : Spec.resolve m i = i).
    { destruct m as [d|]; [|done]. simpl. by rewrite (Hnone d). }
    split; [by rewrite label_of_spec|].
    destruct (decide (i = "")) as [->|Hi].
    { destruct m as [d|]; [|done].
      unfold label_of_optional. by destruct (dict_truthy (Some d)). }
    by rewrite label_of_optional_spec, Hres.
Qed.

Lemma label_resolution_witness :
  "a" ≠ "" ∧ label_of_optional Demo.labels (Some "a") = Some "Group A".
Proof.
  assert (Ha : "a" ≠ "") by discriminate.
  split; [exact Ha|].
  exact (proj1 (proj2 (label_resolution Demo.labels "a")) Ha).
Defined.

(** C6 as stated fails for an optional name: the map has the value
    ['All'] for the key [''], yet [hue_feature = ''] resolves to ['']. *)
Lemma label_resolution_counterexample :
  Spec.resolve Demo.labels "" = "All"
  ∧ label_of_optional Demo.labels (Some "") = Some ""
  ∧ label_of_optional Demo.labels (Some "") ≠ Some (Spec.resolve Demo.labels "").
Proof. split_and!; [reflexivity|reflexivity|discriminate]. Qed.

(** ** The frequency table *)

Section crosstab.
Import Pandas.

Lemma labels_Permutation (keys : list cell) : labels keys ≡ₚ remove_dups keys.
Proof. apply merge_sort_Permutation. Qed.

Lemma NoDup_labels (keys : list cell) : NoDup (labels keys).
Proof. rewrite labels_Permutation. apply NoDup_remove_dups. Qed.

Lemma elem_of_labels (keys : list cell) (c : cell) : c ∈ labels keys ↔ c ∈ keys.
Proof. rewrite labels_Permutation. apply elem_of_remove_dups. Qed.

Lemma length_labels_pair (keys : list cell) (a b : cell) :
  a ≠ b → (∀ c, c ∈ keys ↔ c = a ∨ c = b) → length (labels keys) = 2%nat.
Proof.
  intros Hab Hkeys.
  assert (Hp : labels keys ≡ₚ [a; b]).
  { apply NoDup_Permutation.
    - apply NoDup_labels.
    - apply NoDup_cons. split; [by intros ->%list_elem_of_singleton|].
      apply NoDup_singleton.
    - intros c. rewrite elem_of_labels, Hkeys.
      rewrite elem_of_cons, list_elem_of_singleton. done. }
  by rewrite Hp.
Qed.

Lemma sumZ_map_add {A : Type} (f g : A → Z) (l : list A) :
  sumZ (map (λ a, f a + g a) l) = sumZ (map f l) + sumZ (map g l).
Proof. induction l; simpl; lia. Qed.

Lemma sumZ_map_zero {A : Type} (f : A → Z) (l : list A) :
  (∀ a, a ∈ l → f a = 0) → sumZ (map f l) = 0.
Proof.
  induction l as [|x l IH]; intros H; simpl; [done|].
  rewrite H by left. rewrite IH; [done|]. intros a Ha. apply H. by right.
Qed.

(** One hit in a duplicate-free list. *)
Lemma sumZ_indicator {A : Type} `{EqDecision A} (l : list A) (v : A) (n : Z) :
  NoDup l → v ∈ l →
  sumZ (map (λ u, if bool_decide (u = v) then n else 0) l) = n.
Proof.
  induction 1 as [|x l Hx Hl IH]; intros Hv; [by apply elem_of_nil in Hv|].
  simpl. case_bool_decide as Hxv.
  - subst x. rewrite sumZ_map_zero; [lia|].
    intros a Ha. case_bool_decide; [by subst|done].
  - apply elem_of_cons in Hv as [->|Hv]; [done|]. rewrite IH by done. lia.
Qed.

Lemma count_pair_cons (r : cell * cell) (recs : list (cell * cell)) (a b : cell) :
  count_pair (r :: recs) a b
  = (if bool_decide (r = (a, b)) then 1 else 0) + count_pair recs a b.
Proof.
  unfold count_pair. simpl. case_bool_decide; simpl; lia.
Qed.

Lemma sumZ_map_ext {A : Type} (f g : A → Z) (l : list A) :
  (∀ a, a ∈ l → f a = g a) → sumZ (map f l) = sumZ (map g l).
Proof.
  induction l as [|x l IH]; intros H; simpl; [done|].
  rewrite (H x) by left. rewrite IH; [done|]. intros a Ha. apply H. by right.
Qed.

Lemma sum_cells_add (f g : cell → cell → Z) (rows cols : list cell) :
  sum_cells (λ a b, f a b + g a b) rows cols
  = sum_cells f rows cols + sum_cells g rows cols.
Proof.
  unfold sum_cells. induction rows as [|a rows IH]; simpl; [done|].
  rewrite IH, (sumZ_map_add (f a) (g a)). lia.
Qed.

(** A record falls into exactly one cell. *)
Lemma sum_cells_record (r : cell * cell) (rows cols : list cell) :
  NoDup rows → NoDup cols → r.1 ∈ rows → r.2 ∈ cols →
  sum_cells (λ a b, if bool_decide (r = (a, b)) then 1 else 0) rows cols = 1.
Proof.
  destruct r as [x y]. simpl. intros Hrows Hcols Hx Hy. unfold sum_cells.
  rewrite (sumZ_map_ext _ (λ a, if bool_decide (a = x) then 1 else 0)).
  { by apply sumZ_indicator. }
  intros a _. case_bool_decide as Ha.
  - subst a.
    rewrite (sumZ_map_ext _ (λ b, if bool_decide (b = y) then 1 else 0)).
    { by apply sumZ_indicator. }
    intros b _. by repeat case_bool_decide; simplify_eq.
  - apply sumZ_map_zero. intros b _. case_bool_decide; by simplify_eq.
Qed.

(** Counting the records pair by pair counts every record once. *)
Lemma sum_count_pair (rows cols : list cell) (recs : list (cell * cell)) :
  NoDup rows → NoDup cols →
  (∀ r, r ∈ recs → r.1 ∈ rows ∧ r.2 ∈ cols) →
  sum_cells (count_pair recs) rows cols = Z.of_nat (length recs).
Proof.
  intros Hrows Hcols. induction recs as [|r recs IH]; intros Hin.
  - unfold sum_cells, count_pair. simpl.
    apply sumZ_map_zero. intros a _. by apply sumZ_map_zero.
  - transitivity
      (sum_cells (λ a b, (if bool_decide (r = (a, b)) then 1 else 0)
                           + count_pair recs a b) rows cols).
    { unfold sum_cells. apply sumZ_map_ext. intros a _.
      apply sumZ_map_ext. intros b _. apply count_pair_cons. }
    rewrite sum_cells_add, IH by (intros r' Hr'; apply Hin; by right).
    destruct (Hin r) as [Hx Hy]; [left|].
    rewrite sum_cells_record by done. simpl length. lia.
Qed.

Lemma total_crosstab (index columns : Series) :
  total (crosstab index columns) = Z.of_nat (length (records index columns)).
Proof.
  unfold total, crosstab. simpl. rewrite map_map.
  rewrite <- (sum_count_pair (labels (records index columns).*1)
                (labels (records index columns).*2)).
  { unfold sum_cells. apply sumZ_map_ext. intros a _. by rewrite map_map. }
  1,2: apply NoDup_labels.
  intros r Hr. rewrite !elem_of_labels. split.
  - apply list_elem_of_fmap. eauto.
  - apply list_elem_of_fmap. eauto.
Qed.

Lemma records_complete (index columns : Series) (r : cell * cell) :
  r ∈ records index columns → r.1 ≠ NA ∧ r.2 ≠ NA ∧ r.1 ∈ index ∧ r.2 ∈ columns.
Proof.
  unfold records. rewrite list_elem_of_In, filter_In, <- list_elem_of_In.
  intros [Hzip Hc]. unfold complete in Hc.
  apply andb_true_iff in Hc as [H1 H2].
  apply negb_true_iff, bool_decide_eq_false in H1, H2.
  split_and!; [done|done|..].
  - destruct r. eapply elem_of_zip_l, Hzip.
  - destruct r. eapply elem_of_zip_r, Hzip.
Qed.

End crosstab.

(** Without a value column the table is asked for the two columns alone. *)
Lemma build_crosstab_frequency (D : DataFrame) (c1 c2 agg_func : string)
    (A B : Series) (value_col : option string) :
  getitem D c1 = inr A → getitem D c2 = inr B → Py.truthy value_col = false →
  build_crosstab D c1 c2 value_col agg_func = do (pd_crosstab A B None None).
Proof. intros H1 H2 Hv. unfold build_crosstab. by rewrite Hv, H1, H2. Qed.

(** C2, amended.  The frequency table that [eda_heatmap_crosstab] builds
    for [value_col = None] is the cross-tabulation of the columns [A] and
    [B], and for every dataset its cells add up to the number of rows in
    which both [A] and [B] are present.  If, besides missing values, [A]
    holds only the labels [x], [y] (two of them) and [B] only [p], [q],
    and each of the four labels occurs in a row in which neither [A] nor
    [B] is missing, the table has exactly two rows of two cells each. *)
Theorem frequency_crosstab_two_by_two (D : DataFrame) (c1 c2 agg_func : string)
    (A B : Series) :
  getitem D c1 = inr A → getitem D c2 = inr B →
  build_crosstab D c1 c2 None agg_func = do (pd_crosstab A B None None)
  ∧ Pandas.total (Pandas.crosstab A B)
    = Z.of_nat (length (List.filter Pandas.complete (zip A B)))
  ∧ ∀ x y p q : string,
      x ≠ y → p ≠ q →
      (∀ c, c ∈ A → c = NA ∨ c = Str x ∨ c = Str y) →
      (∀ c, c ∈ B → c = NA ∨ c = Str p ∨ c = Str q) →
      Str x ∈ (Pandas.records A B).*1 → Str y ∈ (Pandas.records A B).*1 →
      Str p ∈ (Pandas.records A B).*2 → Str q ∈ (Pandas.records A B).*2 →
      Pandas.shape (Pandas.crosstab A B) = (2%nat, 2%nat)
      ∧ length (ct_cells (Pandas.crosstab A B)) = 2%nat
      ∧ Forall (λ row, length row = 2%nat) (ct_cells (Pandas.crosstab A B)).
Proof.
  intros HA HB. split; [by apply build_crosstab_frequency|].
  split; [apply total_crosstab|].
  intros x y p q Hxy Hpq HAv HBv Hx Hy Hp Hq.
  assert (Hrows : length (Pandas.labels (Pandas.records A B).*1) = 2%nat).
  { apply (length_labels_pair _ (Str x) (Str y)); [congruence|].
    intros c. split; [|by intros [->| ->]].
    intros (r & -> & Hr)%list_elem_of_fmap.
    destruct (records_complete _ _ _ Hr) as (Hna & _ & Hin & _).
    destruct (HAv _ Hin) as [?|?]; [done|done]. }
  assert (Hcols : length (Pandas.labels (Pandas.records A B).*2) = 2%nat).
  { apply (length_labels_pair _ (Str p) (Str q)); [congruence|].
    intros c. split; [|by intros [->| ->]].
    intros (r & -> & Hr)%list_elem_of_fmap.
    destruct (records_complete _ _ _ Hr) as (_ & Hna & _ & Hin).
    destruct (HBv _ Hin) as [?|?]; [done|done]. }
  split_and!.
  - unfold Pandas.shape, Pandas.crosstab. simpl. by rewrite Hrows, Hcols.
  - unfold Pandas.crosstab. simpl. by rewrite length_map.
  - unfold Pandas.crosstab. simpl. apply Forall_forall.
    intros row (a & -> & _)%list_elem_of_fmap. by rewrite length_map.
Qed.

Lemma frequency_crosstab_two_by_two_witness :
  let A := [Str "x"; Str "y"; Str "x"; Str "y"] in
  let B := [Str "p"; Str "q"; Str "q"; NA] in
  Pandas.crosstab A B
  = {| ct_index := [Str "x"; Str "y"];
       ct_columns := [Str "p"; Str "q"];
       ct_cells := [[Some 1; Some 1]; [Some 0; Some 1]] |}
  ∧ Pandas.shape (Pandas.crosstab A B) = (2%nat, 2%nat)
  ∧ Pandas.total (Pandas.crosstab A B) = 3.
Proof.
  intros A B. split; [reflexivity|].
  destruct (frequency_crosstab_two_by_two Demo.df "a" "b" "count" A B)
    as (_ & Htotal & Htwo); [reflexivity|reflexivity|].
  destruct (Htwo "x" "y" "p" "q") as (Hshape & _ & _).
  - discriminate.
  - discriminate.
  - intros c Hc. repeat (apply elem_of_cons in Hc as [->|Hc]; [auto|]).
    by apply elem_of_nil in Hc.
  - intros c Hc. repeat (apply elem_of_cons in Hc as [->|Hc]; [auto|]).
    by apply elem_of_nil in Hc.
  - by left.
  - right. by left.
  - by left.
  - right. by left.
  - split; [exact Hshape|]. rewrite Htotal. reflexivity.
Defined.

(** C2 as stated fails when a label occurs only next to a missing value:
    [A] takes the values [x], [y] and [B] the values [p], [q], but the
    only row with both present is the first, and the table, also the one
    handed to [sns.heatmap], has one row and one column. *)
Lemma frequency_crosstab_two_by_two_counterexample :
  let A := [Str "x"; Str "y"; NA] in
  let B := [Str "p"; NA; Str "q"] in
  let D := [("A", A); ("B", B)] in
  (∀ c, c ∈ A ↔ c = NA ∨ c = Str "x" ∨ c = Str "y")
  ∧ (∀ c, c ∈ B ↔ c = NA ∨ c = Str "p" ∨ c = Str "q")
  ∧ Pandas.crosstab A B
    = {| ct_index := [Str "x"]; ct_columns := [Str "p"];
         ct_cells := [[Some 1]] |}
  ∧ Pandas.shape (Pandas.crosstab A B) ≠ (2%nat, 2%nat)
  ∧ heatmap_tables
      (run StandIn.lib
         (eda_heatmap_crosstab D "A" "B" None "count" None None
            14 12 10 12 true ".0f" (Py.Float "0.5") "white" None)
         StandIn.start).1.1
    = [Pandas.crosstab A B].
Proof.
  intros A B D. split_and!.
  - intros c. unfold A. rewrite !elem_of_cons, elem_of_nil. tauto.
  - intros c. unfold B. rewrite !elem_of_cons, elem_of_nil. tauto.
  - reflexivity.
  - discriminate.
  - reflexivity.
Qed.

(** ** The project folders *)

Section filesystem.
Import Os.
Implicit Types (ns : gmap path node) (cur d : path) (cs : list string).

Lemma walk_create_subseteq name ns ns' cur d cs :
  walk true name ns cur cs = inr (ns', d) → ns ⊆ ns'.
Proof.
  revert ns cur. induction cs as [|c cs IH]; intros ns cur; simpl.
  - by intros [= <- _].
  - repeat case_bool_decide; [by apply IH..|].
    destruct (ns !! (cur ++ [c])%list) as [[|]|] eqn:Hq; [by apply IH|done|].
    intros Hw%IH. etrans; [|exact Hw]. by apply insert_subseteq.
Qed.

(** What [os.makedirs] went through is there afterwards. *)
Lemma walk_created name ns ns' cur d cs :
  walk true name ns cur cs = inr (ns', d) →
  walk false name ns' cur cs = inr (ns', d).
Proof.
  revert ns cur. induction cs as [|c cs IH]; intros ns cur; simpl.
  - by intros [= <- <-].
  - repeat case_bool_decide; [by apply IH..|].
    destruct (ns !! (cur ++ [c])%list) as [[|]|] eqn:Hq; [|done|].
    + intros Hw. apply walk_create_subseteq in Hw as Hsub.
      rewrite (lookup_weaken _ _ _ _ Hq Hsub). by eapply IH.
    + intros Hw. apply walk_create_subseteq in Hw as Hsub.
      rewrite (lookup_weaken (<[(cur ++ [c])%list := Dir]> ns) ns'
                 (cur ++ [c])%list Dir (lookup_insert_eq _ _ _) Hsub).
      by eapply IH.
Qed.

(** A path that exists keeps its meaning when directories are added,
    and walking it changes nothing. *)
Lemma walk_existing b name name' ns ns0 ns2 cur d cs :
  walk false name ns cur cs = inr (ns0, d) → ns ⊆ ns2 →
  walk b name' ns2 cur cs = inr (ns2, d).
Proof.
  revert cur. induction cs as [|c cs IH]; intros cur; simpl.
  - by intros [= _ <-].
  - repeat case_bool_decide; [by apply IH..|].
    destruct (ns !! (cur ++ [c])%list) as [[|]|] eqn:Hq; [|done..].
    intros Hw Hsub. rewrite (lookup_weaken _ _ _ _ Hq Hsub). by apply IH.
Qed.

(** With no plain file in its way, [os.makedirs] gets through. *)
Lemma walk_create_total name ns cur cs :
  (∀ q, q ∈ track cur cs → ns !! q ≠ Some File) →
  ∃ ns', walk true name ns cur cs = inr (ns', dest cur cs)
    ∧ (∀ q, ns' !! q = Some File → ns !! q = Some File)
    ∧ (∀ q, q ∈ track cur cs → ns' !! q = Some Dir).
Proof.
  revert ns cur. induction cs as [|c cs IH]; intros ns cur; simpl.
  - intros _. exists ns. split_and!; [done|done|]. by intros q ?%elem_of_nil.
  - repeat case_bool_decide; [by apply IH..|].
    intros Hfree.
    destruct (ns !! (cur ++ [c])%list) as [[|]|] eqn:Hq.
    + destruct (IH ns (cur ++ [c])%list) as (ns' & Hw & Hfile & Hdir).
      { intros q Hin. apply Hfree. by right. }
      exists ns'. split_and!; [done|done|].
      intros q [->|Hin]%elem_of_cons; [|by apply Hdir].
      apply walk_create_subseteq in Hw. by eapply lookup_weaken.
    + exfalso. by apply (Hfree (cur ++ [c])%list); [left|].
    + destruct (IH (<[(cur ++ [c])%list := Dir]> ns) (cur ++ [c])%list)
        as (ns' & Hw & Hfile & Hdir).
      { intros q Hin. destruct (decide (q = (cur ++ [c])%list)) as [->|Hne].
        - by rewrite lookup_insert_eq.
        - rewrite lookup_insert_ne by done. apply Hfree. by right. }
      exists ns'. split_and!; [done| |].
      * intros q Hf. apply Hfile in Hf.
        destruct (decide (q = (cur ++ [c])%list)) as [->|Hne].
        -- by rewrite lookup_insert_eq in Hf.
        -- by rewrite lookup_insert_ne in Hf.
      * intros q [->|Hin]%elem_of_cons; [|by apply Hdir].
        apply walk_create_subseteq in Hw.
        eapply lookup_weaken; [|exact Hw]. apply lookup_insert_eq.
Qed.

End filesystem.

Section scaffold.
Import Os.
Implicit Types (st : state) (name : string).

Lemma names_dir_weaken ns ns2 start name d :
  names_dir ns start name d → ns ⊆ ns2 → names_dir ns2 start name d.
Proof. intros [Hne Hw] Hsub. split; [done|]. by eapply walk_existing. Qed.

Lemma resolve_existing b name st d :
  names_dir (nodes st) (base name st) name d →
  resolve b name st = inr (nodes st, d).
Proof.
  intros [Hne Hw]. unfold resolve.
  destruct (String.eqb_spec name ""); [done|]. by eapply walk_existing.
Qed.

Lemma makedirs_inv name st st' (u : unit) :
  makedirs name st = (inr u, st') →
  nodes st ⊆ nodes st' ∧ cwd st' = cwd st ∧ stdout st' = stdout st
  ∧ ∃ d, names_dir (nodes st') (base name st) name d.
Proof.
  unfold makedirs, resolve.
  destruct (String.eqb_spec name "") as [|Hne]; [done|].
  destruct (walk true name (nodes st) (base name st) (split "/" name))
    as [e|[ns d]] eqn:Hw; [done|].
  intros [= _ <-]. simpl. split_and!; [|done|done|].
  - by eapply walk_create_subseteq.
  - exists d. split; [done|]. by eapply walk_created.
Qed.


Lemma chdir_inv name st st' (u : unit) :
  chdir name st = (inr u, st') →
  nodes st' = nodes st ∧ stdout st' = stdout st
  ∧ names_dir (nodes st) (base name st) name (cwd st').
Proof.
  unfold chdir, resolve.
  destruct (String.eqb_spec name "") as [|Hne]; [done|].
  destruct (walk false name (nodes st) (base name st) (split "/" name))
    as [e|[ns d]] eqn:Hw; [done|].
  intros [= _ <-]. simpl. split_and!; [done|done|]. split; [done|].
  by eapply walk_existing.
Qed.

Lemma chdir_existing name st d :
  names_dir (nodes st) (base name st) name d →
  chdir name st
  = (inr (), {| nodes := nodes st; cwd := d; stdout := stdout st |}).
Proof. intros Hd. unfold chdir. by rewrite (resolve_existing _ _ _ _ Hd). Qed.

Lemma base_cwd name st st' : cwd st' = cwd st → base name st' = base name st.
Proof. unfold base. by intros ->. Qed.

Lemma make_folders_inv folders st st' (u : unit) :
  make_folders folders st = (inr u, st') →
  nodes st ⊆ nodes st' ∧ cwd st' = cwd st ∧ stdout st' = stdout st
  ∧ Forall (λ f, ∃ d, names_dir (nodes st') (base f st) f d) folders.
Proof.
  revert st. induction folders as [|f folders IH]; intros st; simpl.
  - by intros [= _ <-].
  - unfold mbind, M_bind.
    destruct (makedirs f st) as [[e|[]] st1] eqn:Hf; [done|].
    intros (Hsub & Hcwd & Hout & Hall)%IH.
    apply makedirs_inv in Hf as (Hsub1 & Hcwd1 & Hout1 & d & Hd).
    split_and!; [by etrans|congruence|congruence|].
    constructor.
    + exists d. by eapply names_dir_weaken.
    + eapply Forall_impl; [exact Hall|]. intros f' [d' Hd']. exists d'.
      by rewrite <- (base_cwd f' st st1).
Qed.



Lemma makedirs_total name st :
  name ≠ "" →
  (∀ q, q ∈ track (base name st) (split "/" name) → nodes st !! q ≠ Some File) →
  ∃ st', makedirs name st = (inr (), st')
    ∧ cwd st' = cwd st ∧ stdout st' = stdout st
    ∧ nodes st ⊆ nodes st'
    ∧ (∀ q, nodes st' !! q = Some File → nodes st !! q = Some File)
    ∧ (∀ q, q ∈ track (base name st) (split "/" name) →
            nodes st' !! q = Some Dir)
    ∧ names_dir (nodes st') (base name st) name
        (dest (base name st) (split "/" name)).
Proof.
  intros Hne Hfree.
  destruct (walk_create_total name (nodes st) _ _ Hfree)
    as (ns' & Hw & Hfile & Hdir).
  exists {| nodes := ns'; cwd := cwd st; stdout := stdout st |}.
  unfold makedirs, resolve.
  destruct (String.eqb_spec name ""); [done|]. rewrite Hw. simpl.
  split_and!; [done|done|done| |done|done|].
  - by eapply walk_create_subseteq.
  - split; [done|]. by eapply walk_created.
Qed.

Lemma make_folders_total folders st :
  Forall (λ f, f ≠ "") folders →
  (∀ f q, f ∈ folders → q ∈ track (base f st) (split "/" f) →
          nodes st !! q ≠ Some File) →
  ∃ st', make_folders folders st = (inr (), st')
    ∧ cwd st' = cwd st ∧ stdout st' = stdout st
    ∧ nodes st ⊆ nodes st'
    ∧ (∀ q, nodes st' !! q = Some File → nodes st !! q = Some File)
    ∧ (∀ f q, f ∈ folders → q ∈ track (base f st) (split "/" f) →
              nodes st' !! q = Some Dir).
Proof.
  intros Hne. revert st. induction Hne as [|f folders Hf _ IH]; intros st Hfree.
  - exists st. split_and!; [done..|]. by intros f q ?%elem_of_nil.
  - destruct (makedirs_total f st Hf) as (s1 & E1 & C1 & O1 & S1 & F1 & D1 & _).
    { intros q. apply Hfree. by left. }
    destruct (IH s1) as (s2 & E2 & C2 & O2 & S2 & F2 & D2).
    { intros f' q Hf' Hq Hfile. apply F1 in Hfile.
      rewrite (base_cwd f' st s1) in Hq by done.
      eapply Hfree; [by right|done..]. }
    exists s2. simpl. unfold mbind, M_bind. rewrite E1.
    split_and!; [done|congruence|congruence|by etrans|by auto|].
    intros f' q [->|Hf']%elem_of_cons Hq.
    + eapply lookup_weaken; [by apply D1|done].
    + apply (D2 f'); [done|]. by rewrite (base_cwd f' st s1).
Qed.





(** C7.  On a file system in which no plain file sits where the layout
  needs a directory, [setup_project_directory('/tmp/proj1')] returns,
  with the working directory ['/tmp/proj1'], the input path
  ['/tmp/proj1/01_data'] and the output path ['/tmp/proj1/03_output'];
  afterwards [/tmp/proj1/01_data/original_data] is a directory, as are
  the other directories of the layout, and the process is in
  [/tmp/proj1]. *)
Theorem setup_tmp_proj1 (st : Os.state) :
(∀ p, p ∈ Demo.scaffold → Os.nodes st !! p ≠ Some Os.File) →
∃ st',
  setup_project_directory "/tmp/proj1" st
  = (inr ("/tmp/proj1", "/tmp/proj1/01_data", "/tmp/proj1/03_output"), st')
  ∧ Os.isdir st' ["tmp"; "proj1"; "01_data"; "original_data"] = true
  ∧ Forall (λ p, Os.isdir st' p = true) Demo.scaffold
  ∧ Os.cwd st' = ["tmp"; "proj1"].
Proof.
intros Hfree.
destruct (makedirs_total "/tmp/proj1" st) as (sa & Ea & Ca & Oa & Sa & Fa & Da & Na);
  [done|..].
{ intros q Hq. apply Hfree. revert Hq. cbv [base isabs]. simpl.
  unfold Demo.scaffold. rewrite !elem_of_cons. tauto. }
pose proof (chdir_existing _ _ _ Na) as Eb.
set (sb := {| nodes := nodes sa; cwd := _; stdout := stdout sa |}) in Eb.
destruct (make_folders_total ["01_data"; "02_document"; "03_output"; "04_script"] sb)
  as (sc & Ec & Cc & Oc & Sc & Fc & Dc).
{ repeat constructor; discriminate. }
{ intros f q Hf Hq. intros Hfile%Fa. revert Hfile. apply Hfree.
  revert Hq. 
  repeat (apply elem_of_cons in Hf as [->|Hf];
          [cbv [base isabs]; simpl; unfold Demo.scaffold;
           rewrite !elem_of_cons; tauto|]).
  by apply elem_of_nil in Hf. }
destruct (makedirs_total (path_join "01_data" "original_data") sc)
  as (sd & Ed & Cd & Od & Sd & Fd & Dd & Nd); [done|..].
{ intros q Hq Hfile%Fc%Fa. revert Hfile. apply Hfree. revert Hq.
  unfold base. rewrite Cc. simpl. unfold Demo.scaffold.
  rewrite !elem_of_cons. tauto. }
assert (Hdirs : Forall (λ p, nodes sd !! p = Some Dir) Demo.scaffold).
{ assert (Hac : nodes sa ⊆ nodes sd) by (etrans; [exact Sc|exact Sd]).
  unfold Demo.scaffold. repeat apply Forall_cons_2; [..|apply Forall_nil_2].
  - eapply lookup_weaken; [apply Da|exact Hac]. by left.
  - eapply lookup_weaken; [apply Da|exact Hac]. right. by left.
  - eapply lookup_weaken; [apply (Dc "01_data")|exact Sd]; by left.
  - eapply lookup_weaken; [apply (Dc "02_document")|exact Sd];
      [right|]; by left.
  - eapply lookup_weaken; [apply (Dc "03_output")|exact Sd];
      [right; right|]; by left.
  - eapply lookup_weaken; [apply (Dc "04_script")|exact Sd];
      [right; right; right|]; by left.
  - apply Dd. unfold base. rewrite Cc. right. by left. }
eexists. unfold setup_project_directory, mbind, M_bind.
rewrite Ea, Eb, Ec, Ed. cbv [getcwd print mret M_ret].
rewrite Cd, Cc. split_and!; [reflexivity| | |done].
- cbn [isdir nodes]. apply bool_decide_eq_true.
  eapply (Forall_forall (λ p, nodes sd !! p = Some Dir)); [exact Hdirs|].
  unfold Demo.scaffold. rewrite !elem_of_cons. tauto.
- eapply Forall_impl; [exact Hdirs|]. intros [|c p] Hp; [done|].
  cbn [isdir nodes]. by apply bool_decide_eq_true.
Qed.

Lemma setup_tmp_proj1_witness :
(∀ p, p ∈ Demo.scaffold → Os.nodes Demo.fs !! p ≠ Some Os.File)
∧ ∃ st',
    setup_project_directory "/tmp/proj1" Demo.fs
    = (inr ("/tmp/proj1", "/tmp/proj1/01_data", "/tmp/proj1/03_output"), st')
    ∧ Os.isdir st' ["tmp"; "proj1"; "01_data"; "original_data"] = true.
Proof.
assert (Hfree : ∀ p, p ∈ Demo.scaffold → Os.nodes Demo.fs !! p ≠ Some Os.File).
{ intros p _. simpl. by rewrite lookup_empty. }
split; [exact Hfree|].
destruct (setup_tmp_proj1 Demo.fs Hfree) as (st' & Hrun & Hdir & _).
exists st'. by split.
Defined.

End scaffold.

(** * Further properties of the plotting functions *)

(** ** What the validation accepts and what it reports *)

Lemma check_columns_ret (D : DataFrame) (what : string) (cols : list string) :
  check_columns D what cols = Ret () ↔ Forall (λ c, c ∈ columns D) cols.
Proof.
  split; [|apply check_columns_present].
  induction cols as [|c cols IH]; simpl; [constructor|].
  destruct (has_column D c) eqn:Hc; [|done].
  intros H. constructor; [by apply has_column_true|auto].
Qed.

Lemma check_optional_ret (D : DataFrame) (what : string) (col : option string) :
  check_optional D what col = Ret () ↔ optional_ok D col.
Proof.
  unfold check_optional, optional_ok.
  destruct col as [c|]; [|split; [congruence|done]].
  simpl. destruct (String.eqb_spec c "") as [->|Hne]; simpl.
  - split; [|done]. by intros _ ? [= <-].
  - destruct (has_column D c) eqn:Hc; simpl.
    + split; [|done]. intros _ ? [= <-] _. by apply has_column_true.
    + split; [done|]. intros H. apply has_column_false in Hc.
      destruct Hc. by apply H.
Qed.

Lemma validation_error_check_columns {A : Type} (D : DataFrame) (what : string)
    (cols : list string) (f : unit → prog A) :
  validation_error (bind (check_columns D what cols) f) = None
  ↔ Forall (λ c, c ∈ columns D) cols ∧ validation_error (f ()) = None.
Proof.
  rewrite <- (check_columns_ret D what).
  destruct (check_columns_cases D what cols) as [->|[e ->]]; simpl.
  - split; [intros ?; by split|by intros [_ ?]].
  - split; [done|]. by intros [? _].
Qed.

Lemma validation_error_check_optional {A : Type} (D : DataFrame) (what : string)
    (col : option string) (f : unit → prog A) :
  validation_error (bind (check_optional D what col) f) = None
  ↔ optional_ok D col ∧ validation_error (f ()) = None.
Proof.
  rewrite <- (check_optional_ret D what).
  destruct (check_optional_cases D what col) as [->|[e ->]]; simpl.
  - split; [intros ?; by split|by intros [_ ?]].
  - split; [done|]. by intros [? _].
Qed.

(** X1.  A plotting function gets past its validation, to its first
    library call, exactly when every required column is a column of the
    dataset and the optional column ([hue_feature], [value_col]) is
    [None], empty or a column of the dataset: well-formed calls are never
    refused, all others always are. *)
Theorem validation_accepts_exactly (D : DataFrame)
    (x_col y_col feature_col categorical_col categorical_col1 categorical_col2
       kind agg_func fmt linecolor : string)
    (hue_feature value_col palette title : option string)
    (reg_line show_points show_error_bars annot : bool)
    (title_fontsize label_fontsize tick_fontsize cbar_label_fontsize : Z)
    (linewidths : Py.number) (variable_labels : LabelMap) :
  (validation_error
     (eda_scatter_plot D x_col y_col hue_feature kind palette reg_line
        title_fontsize label_fontsize tick_fontsize variable_labels) = None
   ↔ x_col ∈ columns D ∧ y_col ∈ columns D ∧ optional_ok D hue_feature)
  ∧ (validation_error
       (eda_violin_plot D feature_col hue_feature palette title show_points
          title_fontsize label_fontsize tick_fontsize variable_labels) = None
     ↔ feature_col ∈ columns D ∧ optional_ok D hue_feature)
  ∧ (validation_error
       (eda_bar_plot D categorical_col feature_col hue_feature palette title
          title_fontsize label_fontsize tick_fontsize show_error_bars
          variable_labels) = None
     ↔ categorical_col ∈ columns D ∧ feature_col ∈ columns D
       ∧ optional_ok D hue_feature)
  ∧ (validation_error
       (eda_heatmap_crosstab D categorical_col1 categorical_col2 value_col
          agg_func palette title title_fontsize label_fontsize tick_fontsize
          cbar_label_fontsize annot fmt linewidths linecolor variable_labels)
       = None
     ↔ categorical_col1 ∈ columns D ∧ categorical_col2 ∈ columns D
       ∧ optional_ok D value_col).
Proof.
  split_and!.
  - unfold eda_scatter_plot, mbind, prog_bind.
    rewrite validation_error_check_columns, validation_error_check_optional.
    rewrite !Forall_cons, Forall_nil. simpl. tauto.
  - unfold eda_violin_plot, mbind, prog_bind.
    rewrite validation_error_check_columns, validation_error_check_optional.
    rewrite !Forall_cons, Forall_nil. simpl. tauto.
  - unfold eda_bar_plot, mbind, prog_bind.
    rewrite !validation_error_check_columns, validation_error_check_optional.
    rewrite !Forall_cons, Forall_nil. simpl. tauto.
  - unfold eda_heatmap_crosstab, mbind, prog_bind.
    rewrite validation_error_check_columns, validation_error_check_optional.
    rewrite !Forall_cons, Forall_nil. simpl. tauto.
Qed.

(** X2.  When several columns are missing, the one reported is the first
    in the order of the checks (required columns in parameter order, then
    the optional one), and the message says which role it had: [列] for
    the scatter and violin columns, [カテゴリ列] and [特徴量列] for the bar
    plot, [カテゴリ列] for both heatmap categories, [hue列] and [値の列] for
    the optional ones. *)
Theorem first_missing_column_is_reported (D : DataFrame)
    (x_col y_col feature_col categorical_col categorical_col1 categorical_col2
       kind agg_func fmt linecolor : string)
    (hue_feature value_col palette title : option string)
    (reg_line show_points show_error_bars annot : bool)
    (title_fontsize label_fontsize tick_fontsize cbar_label_fontsize : Z)
    (linewidths : Py.number) (variable_labels : LabelMap) :
  validation_error
    (eda_scatter_plot D x_col y_col hue_feature kind palette reg_line
       title_fontsize label_fontsize tick_fontsize variable_labels)
  = (if negb (has_column D x_col)
     then Some (Py.ValueError (missing_column "列" x_col))
     else if negb (has_column D y_col)
     then Some (Py.ValueError (missing_column "列" y_col))
     else optional_error D "hue列" hue_feature)
  ∧ validation_error
      (eda_violin_plot D feature_col hue_feature palette title show_points
         title_fontsize label_fontsize tick_fontsize variable_labels)
    = (if negb (has_column D feature_col)
       then Some (Py.ValueError (missing_column "列" feature_col))
       else optional_error D "hue列" hue_feature)
  ∧ validation_error
      (eda_bar_plot D categorical_col feature_col hue_feature palette title
         title_fontsize label_fontsize tick_fontsize show_error_bars
         variable_labels)
    = (if negb (has_column D categorical_col)
       then Some (Py.ValueError (missing_column "カテゴリ列" categorical_col))
       else if negb (has_column D feature_col)
       then Some (Py.ValueError (missing_column "特徴量列" feature_col))
       else optional_error D "hue列" hue_feature)
  ∧ validation_error
      (eda_heatmap_crosstab D categorical_col1 categorical_col2 value_col
         agg_func palette title title_fontsize label_fontsize tick_fontsize
         cbar_label_fontsize annot fmt linewidths linecolor variable_labels)
    = (if negb (has_column D categorical_col1)
       then Some (Py.ValueError (missing_column "カテゴリ列" categorical_col1))
       else if negb (has_column D categorical_col2)
       then Some (Py.ValueError (missing_column "カテゴリ列" categorical_col2))
       else optional_error D "値の列" value_col).
Proof.
  unfold optional_error. split_and!.
  - unfold eda_scatter_plot, mbind, prog_bind, check_optional. simpl.
    destruct (has_column D x_col), (has_column D y_col); simpl; try done.
    destruct hue_feature as [h|]; [|done]. cbn [Py.truthy].
    by destruct (negb (String.eqb h "") && negb (has_column D h)).
  - unfold eda_violin_plot, mbind, prog_bind, check_optional. simpl.
    destruct (has_column D feature_col); simpl; try done.
    destruct hue_feature as [h|]; [|done]. cbn [Py.truthy].
    by destruct (negb (String.eqb h "") && negb (has_column D h)).
  - unfold eda_bar_plot, mbind, prog_bind, check_optional. simpl.
    destruct (has_column D categorical_col), (has_column D feature_col);
      simpl; try done.
    destruct hue_feature as [h|]; [|done]. cbn [Py.truthy].
    by destruct (negb (String.eqb h "") && negb (has_column D h)).
  - unfold eda_heatmap_crosstab, mbind, prog_bind, check_optional. simpl.
    destruct (has_column D categorical_col1), (has_column D categorical_col2);
      simpl; try done.
    destruct value_col as [h|]; [|done]. cbn [Py.truthy].
    by destruct (negb (String.eqb h "") && negb (has_column D h)).
Qed.

(** ** The table the heatmap asks for *)

Lemma has_column_getitem (D : DataFrame) (col : string) :
  col ∈ columns D → ∃ s, getitem D col = inr s.
Proof.
  unfold columns. induction D as [|[name s] D IH]; simpl.
  - by intros ?%elem_of_nil.
  - destruct (String.eqb_spec name col) as [->|Hne]; [eauto|].
    intros [?|?]%elem_of_cons; [congruence|auto].
Qed.

(** X3.  Once the validation is passed, the cross-tabulation step of
    [eda_heatmap_crosstab] is one call of [pd.crosstab] on the columns
    [df[categorical_col1]] and [df[categorical_col2]]: no [df[...]]
    lookup raises a [KeyError].  Without a value column neither values
    nor an aggregation function are passed; with one, [df[value_col]] and
    [agg_func] are. *)
Theorem heatmap_reads_validated_columns (D : DataFrame)
    (categorical_col1 categorical_col2 agg_func : string)
    (value_col : option string) :
  categorical_col1 ∈ columns D → categorical_col2 ∈ columns D →
  optional_ok D value_col →
  ∃ index columns,
    getitem D categorical_col1 = inr index
    ∧ getitem D categorical_col2 = inr columns
    ∧ (Py.truthy value_col = false →
       build_crosstab D categorical_col1 categorical_col2 value_col agg_func
       = do (pd_crosstab index columns None None))
    ∧ (Py.truthy value_col = true →
       ∃ values, getitem_optional D value_col = inr values ∧
         build_crosstab D categorical_col1 categorical_col2 value_col agg_func
         = do (pd_crosstab index columns (Some values) (Some agg_func))).
Proof.
  intros [index H1]%has_column_getitem [cols H2]%has_column_getitem Hv.
  exists index, cols. split_and!; [done|done|..].
  - intros Ht. unfold build_crosstab. by rewrite Ht, H1, H2.
  - intros Ht. destruct value_col as [v|]; [|done].
    destruct (has_column_getitem D v) as [values H3].
    { apply Hv; [done|]. intros ->. discriminate. }
    exists values. split; [done|].
    unfold build_crosstab. rewrite Ht, H1, H2. simpl. by rewrite H3.
Qed.

Lemma heatmap_reads_validated_columns_witness :
  "a" ∈ columns Demo.df ∧ "b" ∈ columns Demo.df
  ∧ optional_ok Demo.df (Some "v")
  ∧ build_crosstab Demo.df "a" "b" (Some "v") "mean"
    = do (pd_crosstab [Str "x"; Str "y"; Str "x"; Str "y"]
            [Str "p"; Str "q"; Str "q"; NA]
            (Some [Num 10; Num 20; NA; Num 40]) (Some "mean")).
Proof.
  assert (Ha : "a" ∈ columns Demo.df) by (by apply has_column_true).
  assert (Hb : "b" ∈ columns Demo.df) by (by apply has_column_true).
  assert (Hv : optional_ok Demo.df (Some "v")).
  { intros c [= <-] _. by apply has_column_true. }
  split_and!; [done..|].
  destruct (heatmap_reads_validated_columns Demo.df "a" "b" "mean" (Some "v")
              Ha Hb Hv) as (index & cols & E1 & E2 & _ & Ht).
  destruct (Ht eq_refl) as (values & E3 & Hbuild).
  injection E1 as <-. injection E2 as <-. injection E3 as <-. exact Hbuild.
Defined.

(** X4.  Without a value column ([value_col] is [None] or empty) the
    aggregation function plays no part: the heatmap programs for any two
    values of [agg_func] are the same, so a call such as
    [agg_func='mean'] without [value_col] draws plain counts. *)
Theorem agg_func_unused_without_value_col (D : DataFrame)
    (categorical_col1 categorical_col2 agg_func agg_func' fmt linecolor : string)
    (palette title : option string)
    (title_fontsize label_fontsize tick_fontsize cbar_label_fontsize : Z)
    (annot : bool) (linewidths : Py.number) (variable_labels : LabelMap) :
  eda_heatmap_crosstab D categorical_col1 categorical_col2 None agg_func
    palette title title_fontsize label_fontsize tick_fontsize
    cbar_label_fontsize annot fmt linewidths linecolor variable_labels
  = eda_heatmap_crosstab D categorical_col1 categorical_col2 None agg_func'
      palette title title_fontsize label_fontsize tick_fontsize
      cbar_label_fontsize annot fmt linewidths linecolor variable_labels
  ∧ eda_heatmap_crosstab D categorical_col1 categorical_col2 (Some "")
      agg_func palette title title_fontsize label_fontsize tick_fontsize
      cbar_label_fontsize annot fmt linewidths linecolor variable_labels
    = eda_heatmap_crosstab D categorical_col1 categorical_col2 (Some "")
        agg_func' palette title title_fontsize label_fontsize tick_fontsize
        cbar_label_fontsize annot fmt linewidths linecolor variable_labels.
Proof. split; reflexivity. Qed.

(** ** Whole runs *)

(** Unfolds a plotting function and splits on its validation. *)
Ltac enter_run :=
  unfold eda_scatter_plot, eda_violin_plot, eda_bar_plot,
    eda_heatmap_crosstab, build_crosstab, mbind, prog_bind;
  repeat match goal with
  | |- context [check_columns ?D ?w ?cs] =>
      destruct (check_columns_cases D w cs) as [->|[? ->]]; cbn [bind]
  | |- context [check_optional ?D ?w ?c] =>
      destruct (check_optional_cases D w c) as [->|[? ->]]; cbn [bind]
  end.

(** All the completed runs behind a goal [run ... = (tr, Returned (), _) → _],
    each with its trace written out. *)
Ltac completed_run tr :=
  enter_run; try (intros [=]; fail);
  let H := fresh "H" in
  intros H; run_cases H; try discriminate; trace_of H tr.

(** Closes a goal [show_closes] of a run whose trace is written out. *)
Ltac closed_by_show :=
  repeat match goal with u : () |- _ => destruct u end;
  first [ by split | by left | right; by split ].

(** All the runs of the program in a goal about [run L p s]. *)
Ltac any_run :=
  match goal with
  | |- context [run ?L ?p ?s] =>
      let H := fresh "H" in
      destruct (run L p s) as [[? ?] ?] eqn:H; revert H;
      enter_run; intros H; run_cases H; injection H as <- <- <-
  end.

(** X5.  [plt.show()] is the last thing each of the four functions
    does.  A run that returns has called it exactly once, and it is the
    run's last call.  In a run that raises, whether in the validation or
    in a library, no call of [plt.show()] has come back: it was not
    reached, unless it is [plt.show()] itself that raised.  (What the
    notebook backend renders on its own after a cell, also one that
    failed, is not part of a run.) *)
Theorem show_is_the_last_call {S : Type} (L : library S) (s : S)
    (D : DataFrame)
    (x_col y_col feature_col categorical_col categorical_col1 categorical_col2
       kind agg_func fmt linecolor : string)
    (hue_feature value_col palette title : option string)
    (reg_line show_points show_error_bars annot : bool)
    (title_fontsize label_fontsize tick_fontsize cbar_label_fontsize : Z)
    (linewidths : Py.number) (variable_labels : LabelMap) :
  show_closes
    (run L (eda_scatter_plot D x_col y_col hue_feature kind palette reg_line
              title_fontsize label_fontsize tick_fontsize variable_labels) s)
  ∧ show_closes
      (run L (eda_violin_plot D feature_col hue_feature palette title
                show_points title_fontsize label_fontsize tick_fontsize
                variable_labels) s)
  ∧ show_closes
      (run L (eda_bar_plot D categorical_col feature_col hue_feature palette
                title title_fontsize label_fontsize tick_fontsize
                show_error_bars variable_labels) s)
  ∧ show_closes
      (run L (eda_heatmap_crosstab D categorical_col1 categorical_col2
                value_col agg_func palette title title_fontsize
                label_fontsize tick_fontsize cbar_label_fontsize annot fmt
                linewidths linecolor variable_labels) s).
Proof.
  unfold show_closes. split_and!.
  - any_run; cbn; closed_by_show.
  - any_run; cbn; closed_by_show.
  - any_run; cbn; closed_by_show.
  - any_run; cbn; closed_by_show.
Qed.

(** X6.  A completed call sets one title.  It is the caller's [title]
    whenever that is a non-empty string; for [None] and for the empty
    string it is the generated one: for the violin plot with or without
    the [by <hue>] part according to [hue_feature], for the bar plot with
    the [(Hue by ...)] part only if the hue's display label is non-empty,
    for the heatmap the value or the count form according to
    [value_col]. *)
Theorem explicit_title_overrides_default {S : Type} (L : library S) (s s' : S)
    (D : DataFrame)
    (feature_col categorical_col categorical_col1 categorical_col2
       agg_func fmt linecolor : string)
    (hue_feature value_col palette title : option string)
    (show_points show_error_bars annot : bool)
    (title_fontsize label_fontsize tick_fontsize cbar_label_fontsize : Z)
    (linewidths : Py.number) (variable_labels : LabelMap) (tr : list event) :
  (run L (eda_violin_plot D feature_col hue_feature palette title show_points
            title_fontsize label_fontsize tick_fontsize variable_labels) s
     = (tr, Returned (), s') →
   titles tr =
     [if Py.truthy title then title
      else if Py.truthy hue_feature
      then Some ("Violin Plot of " ++ label_of variable_labels feature_col
                   ++ " by "
                   ++ Py.fmt (label_of_optional variable_labels hue_feature))
      else Some ("Violin Plot of " ++ label_of variable_labels feature_col)])
  ∧ (run L (eda_bar_plot D categorical_col feature_col hue_feature palette
              title title_fontsize label_fontsize tick_fontsize
              show_error_bars variable_labels) s
       = (tr, Returned (), s') →
     titles tr =
       [if Py.truthy title then title
        else if Py.truthy (label_of_optional variable_labels hue_feature)
        then Some (("Mean " ++ label_of variable_labels feature_col ++ " by "
                      ++ label_of variable_labels categorical_col)
                     ++ " (Hue by "
                     ++ Py.fmt (label_of_optional variable_labels hue_feature)
                     ++ ")")
        else Some ("Mean " ++ label_of variable_labels feature_col ++ " by "
                     ++ label_of variable_labels categorical_col)])
  ∧ (run L (eda_heatmap_crosstab D categorical_col1 categorical_col2
              value_col agg_func palette title title_fontsize
              label_fontsize tick_fontsize cbar_label_fontsize annot fmt
              linewidths linecolor variable_labels) s
       = (tr, Returned (), s') →
     titles tr =
       [if Py.truthy title then title
        else if Py.truthy value_col
        then Some (Py.fmt (label_of_optional variable_labels value_col)
                     ++ " (" ++ agg_func ++ ") by "
                     ++ label_of variable_labels categorical_col1 ++ " and "
                     ++ label_of variable_labels categorical_col2)
        else Some ("Count by "
                     ++ label_of variable_labels categorical_col1 ++ " and "
                     ++ label_of variable_labels categorical_col2)]).
Proof.
  split_and!.
  - completed_run tr; reflexivity.
  - completed_run tr; reflexivity.
  - completed_run tr; reflexivity.
Qed.

Lemma explicit_title_overrides_default_witness :
  ∃ tr s',
    run StandIn.lib
      (eda_violin_plot Demo.df "v" (Some "a") None (Some "") true 14 12 10
         Demo.labels) StandIn.start = (tr, Returned (), s')
    ∧ titles tr = [Some "Violin Plot of v by Group A"].
Proof.
  eexists _, _. split; [vm_compute; reflexivity|].
  eapply (proj1 (explicit_title_overrides_default StandIn.lib StandIn.start _
                  Demo.df "v" "a" "a" "b" "count" ".0f" "white" (Some "a")
                  None None (Some "") true true true 14 12 10 12
                  (Py.Float "0.5") Demo.labels _)).
  vm_compute. reflexivity.
Defined.

(** X7.  [eda_scatter_plot] has no title parameter: a completed call
    sets the figure title [Joint Plot of <x> vs <y> (Hue by <hue>)] from
    the display labels, and the hue part is always there; for
    [hue_feature = None] it reads [(Hue by None)], for the empty string
    [(Hue by )]. *)
Theorem scatter_title_names_hue {S : Type} (L : library S) (s s' : S)
    (D : DataFrame) (x_col y_col kind : string)
    (hue_feature palette : option string) (reg_line : bool)
    (title_fontsize label_fontsize tick_fontsize : Z)
    (variable_labels : LabelMap) (tr : list event) :
  run L (eda_scatter_plot D x_col y_col hue_feature kind palette reg_line
           title_fontsize label_fontsize tick_fontsize variable_labels) s
    = (tr, Returned (), s') →
  titles tr =
    [Some ("Joint Plot of " ++ label_of variable_labels x_col ++ " vs "
             ++ label_of variable_labels y_col ++ " (Hue by "
             ++ match hue_feature with
                | None => "None"
                | Some h =>
                    if String.eqb h "" then ""
                    else Spec.resolve variable_labels h
                end ++ ")")].
Proof.
  intros H.
  assert (Hh : Py.fmt (label_of_optional variable_labels hue_feature)
               = match hue_feature with
                 | None => "None"
                 | Some h => if String.eqb h "" then ""
                             else Spec.resolve variable_labels h
                 end).
  { destruct hue_feature as [h|]; [|by destruct variable_labels].
    destruct (String.eqb_spec h "") as [->|Hne].
    - destruct variable_labels as [d|]; [|done].
      unfold label_of_optional. by destruct (dict_truthy (Some d)).
    - by rewrite label_of_optional_spec. }
  rewrite <- Hh. clear Hh. revert H.
  completed_run tr; reflexivity.
Qed.

Lemma scatter_title_names_hue_witness :
  ∃ tr s',
    run StandIn.lib
      (eda_scatter_plot Demo.df "a" "v" None "scatter" None true 8 6 6
         Demo.labels) StandIn.start = (tr, Returned (), s')
    ∧ titles tr = [Some "Joint Plot of Group A vs v (Hue by None)"].
Proof.
  eexists _, _. split; [vm_compute; reflexivity|].
  eapply (scatter_title_names_hue StandIn.lib StandIn.start _ Demo.df "a" "v"
           "scatter" None None true 8 6 6 Demo.labels).
  vm_compute. reflexivity.
Defined.

(** X8.  The label map changes what is written, not what is plotted: in
    a completed call seaborn is given the column names as passed (the
    violin plot puts [hue_feature] on the x axis, or nothing when it is
    absent or empty), while the axis labels are the display labels.  The
    heatmap labels its x axis with [categorical_col2] and its y axis with
    [categorical_col1]. *)
Theorem plots_raw_columns_labels_display_names {S : Type} (L : library S)
    (s s' : S) (D : DataFrame)
    (x_col y_col feature_col categorical_col categorical_col1 categorical_col2
       kind agg_func fmt linecolor : string)
    (hue_feature value_col palette title : option string)
    (reg_line show_points show_error_bars annot : bool)
    (title_fontsize label_fontsize tick_fontsize cbar_label_fontsize : Z)
    (linewidths : Py.number) (variable_labels : LabelMap) (tr : list event) :
  (run L (eda_scatter_plot D x_col y_col hue_feature kind palette reg_line
            title_fontsize label_fontsize tick_fontsize variable_labels) s
     = (tr, Returned (), s') →
   plotted tr =
     [Some x_col; Some y_col; hue_feature]
       :: (if reg_line && negb (String.eqb kind "reg")
           then [[Some x_col; Some y_col]] else [])
   ∧ xlabels tr = [Some (label_of variable_labels x_col)]
   ∧ ylabels tr = [Some (label_of variable_labels y_col)])
  ∧ (run L (eda_violin_plot D feature_col hue_feature palette title
              show_points title_fontsize label_fontsize tick_fontsize
              variable_labels) s
       = (tr, Returned (), s') →
     plotted tr =
       [[if Py.truthy hue_feature then hue_feature else None; Some feature_col]]
     ∧ xlabels tr =
         [if Py.truthy hue_feature
          then label_of_optional variable_labels hue_feature else Some ""]
     ∧ ylabels tr = [Some (label_of variable_labels feature_col)])
  ∧ (run L (eda_bar_plot D categorical_col feature_col hue_feature palette
              title title_fontsize label_fontsize tick_fontsize
              show_error_bars variable_labels) s
       = (tr, Returned (), s') →
     plotted tr = [[Some categorical_col; Some feature_col; hue_feature]]
     ∧ xlabels tr = [Some (label_of variable_labels categorical_col)]
     ∧ ylabels tr = [Some (label_of variable_labels feature_col)])
  ∧ (run L (eda_heatmap_crosstab D categorical_col1 categorical_col2
              value_col agg_func palette title title_fontsize
              label_fontsize tick_fontsize cbar_label_fontsize annot fmt
              linewidths linecolor variable_labels) s
       = (tr, Returned (), s') →
     xlabels tr = [Some (label_of variable_labels categorical_col2)]
     ∧ ylabels tr = [Some (label_of variable_labels categorical_col1)]).
Proof.
  split_and!.
  - completed_run tr; split_and!; reflexivity.
  - completed_run tr; split_and!; reflexivity.
  - completed_run tr; split_and!; reflexivity.
  - completed_run tr; split_and!; reflexivity.
Qed.

Lemma plots_raw_columns_labels_display_names_witness :
  ∃ tr s',
    run StandIn.lib
      (eda_bar_plot Demo.df "a" "v" (Some "b") None None 14 12 10 true
         Demo.labels) StandIn.start = (tr, Returned (), s')
    ∧ plotted tr = [[Some "a"; Some "v"; Some "b"]]
    ∧ xlabels tr = [Some "Group A"]
    ∧ ylabels tr = [Some "v"].
Proof.
  eexists _, _. split; [vm_compute; reflexivity|].
  eapply (proj1 (proj2 (proj2
           (plots_raw_columns_labels_display_names StandIn.lib StandIn.start _
              Demo.df "a" "v" "v" "a" "a" "b" "scatter" "count" ".0f" "white"
              (Some "b") None None None true true true true 14 12 10 12
              (Py.Float "0.5") Demo.labels _)))).
  vm_compute. reflexivity.
Defined.

(** Closes a goal [legend_styled] of a run whose trace is written out. *)
Ltac legend_cases :=
  first [ done
        | eexists; split_and!;
          [reflexivity | reflexivity
          | first [left; by split | right; eexists _, _; by split]] ].

(** X9.  The legend, in a completed call of the scatter, violin or bar
    plot: [ax.legend_] is read once; if the axes have no legend, no
    legend object is touched; if they have one, the entries that
    [get_texts()] returns are set to [tick_fontsize], and its title is
    set to [label_fontsize * 0.9] whenever [get_title()] returns one,
    and only then. *)
Theorem legend_fonts {S : Type} (L : library S) (s s' : S) (D : DataFrame)
    (x_col y_col feature_col categorical_col kind : string)
    (hue_feature palette title : option string)
    (reg_line show_points show_error_bars : bool)
    (title_fontsize label_fontsize tick_fontsize : Z)
    (variable_labels : LabelMap) (tr : list event) :
  (run L (eda_scatter_plot D x_col y_col hue_feature kind palette reg_line
            title_fontsize label_fontsize tick_fontsize variable_labels) s
     = (tr, Returned (), s') →
   legend_styled label_fontsize tick_fontsize tr)
  ∧ (run L (eda_violin_plot D feature_col hue_feature palette title
              show_points title_fontsize label_fontsize tick_fontsize
              variable_labels) s
       = (tr, Returned (), s') →
     legend_styled label_fontsize tick_fontsize tr)
  ∧ (run L (eda_bar_plot D categorical_col feature_col hue_feature palette
              title title_fontsize label_fontsize tick_fontsize
              show_error_bars variable_labels) s
       = (tr, Returned (), s') →
     legend_styled label_fontsize tick_fontsize tr).
Proof.
  unfold legend_styled. split_and!.
  - completed_run tr; cbn; legend_cases.
  - completed_run tr; cbn; legend_cases.
  - completed_run tr; cbn; legend_cases.
Qed.

Lemma legend_fonts_witness :
  ∃ tr s',
    run StandIn.lib
      (eda_scatter_plot Demo.df "a" "v" (Some "b") "scatter" None true 8 6 6
         Demo.labels) StandIn.start = (tr, Returned (), s')
    ∧ legend_styled 6 6 tr
    ∧ fontsize_calls tr = [(2002%nat, Py.Mul (Py.Int 6) (Py.Float "0.9"))].
Proof.
  eexists _, _. split; [vm_compute; reflexivity|]. split; [|reflexivity].
  eapply (proj1 (legend_fonts StandIn.lib StandIn.start _ Demo.df "a" "v" "v"
                  "a" "scatter" (Some "b") None None true true true 8 6 6
                  Demo.labels _)).
  vm_compute. reflexivity.
Defined.

(** X10.  [eda_heatmap_crosstab] raises nothing of its own once the
    validation is passed, and catches nothing: when a run raises [e],
    either no library was called and [e] is the validation's
    [ValueError], or [e] is the exception the last library call answered
    with, unchanged. *)
Theorem heatmap_raises_only_what_it_is_given {S : Type} (L : library S)
    (s s' : S) (D : DataFrame)
    (categorical_col1 categorical_col2 agg_func fmt linecolor : string)
    (value_col palette title : option string)
    (title_fontsize label_fontsize tick_fontsize cbar_label_fontsize : Z)
    (annot : bool) (linewidths : Py.number) (variable_labels : LabelMap)
    (tr : list event) (e : Py.exn) :
  run L (eda_heatmap_crosstab D categorical_col1 categorical_col2 value_col
           agg_func palette title title_fontsize label_fontsize tick_fontsize
           cbar_label_fontsize annot fmt linewidths linecolor variable_labels) s
    = (tr, Raised e, s') →
  (tr = [] ∧
   validation_error
     (eda_heatmap_crosstab D categorical_col1 categorical_col2 value_col
        agg_func palette title title_fontsize label_fontsize tick_fontsize
        cbar_label_fontsize annot fmt linewidths linecolor variable_labels)
   = Some e)
  ∨ (∃ (R : Type) (c : call R), last tr = Some (Ev c (inl e))).
Proof.
  unfold eda_heatmap_crosstab, mbind, prog_bind.
  destruct (check_columns_cases D "カテゴリ列" [categorical_col1; categorical_col2])
    as [Hok|[e' Hraise]].
  2:{ rewrite Hraise. intros [= <- <- _]. by left. }
  rewrite Hok. cbn [bind].
  apply check_columns_ret in Hok.
  apply Forall_cons in Hok as [H1 [H2 _]%Forall_cons].
  destruct (check_optional_cases D "値の列" value_col) as [Hopt|[e' Hraise]].
  2:{ rewrite Hraise. intros [= <- <- _]. by left. }
  rewrite Hopt. cbn [bind]. apply check_optional_ret in Hopt.
  destruct (has_column_getitem D _ H1) as [index E1].
  destruct (has_column_getitem D _ H2) as [cols E2].
  intros H. right. unfold build_crosstab in H. rewrite E1, E2 in H.
  destruct (Py.truthy value_col) eqn:Hv.
  - destruct value_col as [v|]; [|done].
    destruct (has_column_getitem D v) as [values E3].
    { apply Hopt; [done|]. intros ->. discriminate. }
    cbn [getitem_optional] in H. rewrite E3 in H.
    run_cases H; try discriminate; injection H as <- <- _;
      eexists _, _; reflexivity.
  - run_cases H; try discriminate; injection H as <- <- _;
      eexists _, _; reflexivity.
Qed.

Lemma heatmap_raises_only_what_it_is_given_witness :
  ∃ tr e s',
    run StandIn.lib
      (eda_heatmap_crosstab Demo.df "a" "b" (Some "v") "average" None None
         14 12 10 12 true ".0f" (Py.Float "0.5") "white" None) StandIn.start
    = (tr, Raised e, s')
    ∧ e = Py.AttributeError "'SeriesGroupBy' object has no attribute 'average'"
    ∧ ∃ (R : Type) (c : call R), last tr = Some (Ev c (inl e)).
Proof.
  eexists _, _, _. split; [vm_compute; reflexivity|]. split; [reflexivity|].
  destruct (heatmap_raises_only_what_it_is_given StandIn.lib StandIn.start _
              Demo.df "a" "b" "average" ".0f" "white" (Some "v") None None
              14 12 10 12 true (Py.Float "0.5") None _ _
              ltac:(vm_compute; reflexivity)) as [[Hnil _]|Hlast].
  - discriminate Hnil.
  - exact Hlast.
Defined.

(** * Further properties of the project folders *)

Section scaffold_effects.
Import Os.
Implicit Types (st : state) (name : string).

Lemma walk_create_files name (ns ns' : gmap path node) (cur d : path)
    (cs : list string) :
  walk true name ns cur cs = inr (ns', d) →
  ∀ q, ns' !! q = Some File → ns !! q = Some File.
Proof.
  revert ns cur. induction cs as [|c cs IH]; intros ns cur; simpl.
  - by intros [= <- _].
  - repeat case_bool_decide; [by apply IH..|].
    destruct (ns !! (cur ++ [c])%list) as [[|]|] eqn:Hq; [by apply IH|done|].
    intros Hw q Hf. apply (IH _ _ Hw) in Hf.
    destruct (decide (q = (cur ++ [c])%list)) as [->|Hne].
    + by rewrite lookup_insert_eq in Hf.
    + by rewrite lookup_insert_ne in Hf.
Qed.

(** A walk ends where its names lead, and has entered every directory
    on the way. *)
Lemma walk_dest (b : bool) name (ns ns' : gmap path node) (cur d : path)
    (cs : list string) :
  walk b name ns cur cs = inr (ns', d) →
  d = dest cur cs ∧ ∀ q, q ∈ track cur cs → ns' !! q = Some Dir.
Proof.
  revert ns cur. induction cs as [|c cs IH]; intros ns cur; simpl.
  - intros [= _ <-]. split; [done|]. by intros q ?%elem_of_nil.
  - repeat case_bool_decide; [by apply IH..|].
    destruct (ns !! (cur ++ [c])%list) as [[|]|] eqn:Hq; [|done|].
    + intros Hw. destruct (IH _ _ Hw) as [-> Hdir]. split; [done|].
      intros q [->|Hin]%elem_of_cons; [|by apply Hdir].
      destruct b.
      * apply walk_create_subseteq in Hw. by eapply lookup_weaken.
      * pose proof (walk_existing false name name _ _ ns _ _ _ Hw
                      (reflexivity ns)) as Hw'.
        rewrite Hw in Hw'. by injection Hw' as ->.
    + destruct b; [|done].
      intros Hw. destruct (IH _ _ Hw) as [-> Hdir]. split; [done|].
      intros q [->|Hin]%elem_of_cons; [|by apply Hdir].
      apply walk_create_subseteq in Hw.
      eapply lookup_weaken; [|exact Hw]. apply lookup_insert_eq.
Qed.

Lemma grown_refl st : grown st st.
Proof. by split. Qed.

Lemma grown_trans st1 st2 st3 : grown st1 st2 → grown st2 st3 → grown st1 st3.
Proof. intros [S1 F1] [S2 F2]. split; [by etrans|auto]. Qed.

(** What a creating walk leaves behind has grown out of what it found. *)
Lemma built_grown (ns : gmap path node) (cur : path) (cs : list string) :
  ns ⊆ built ns cur cs
  ∧ ∀ q, built ns cur cs !! q = Some File → ns !! q = Some File.
Proof.
  revert ns cur. induction cs as [|c cs IH]; intros ns cur; simpl; [done|].
  repeat case_bool_decide; [by apply IH..|].
  destruct (ns !! (cur ++ [c])%list) as [[|]|] eqn:Hq; [by apply IH|done|].
  destruct (IH (<[(cur ++ [c])%list := Dir]> ns) (cur ++ [c])%list) as [Hs Hf].
  split.
  - etrans; [|exact Hs]. by apply insert_subseteq.
  - intros q Hq'. apply Hf in Hq'.
    destruct (decide (q = (cur ++ [c])%list)) as [->|Hne].
    + by rewrite lookup_insert_eq in Hq'.
    + by rewrite lookup_insert_ne in Hq'.
Qed.

Lemma makedirs_effect name st (r : Py.exn + unit) st' :
  makedirs name st = (r, st') →
  grown st st' ∧ cwd st' = cwd st ∧ stdout st' = stdout st.
Proof.
  unfold makedirs, resolve.
  destruct (String.eqb name ""); [by intros [= _ <-]|].
  destruct (walk true name (nodes st) (base name st) (split "/" name))
    as [e|[ns d]] eqn:Hw; intros [= _ <-].
  - split; [|done]. apply built_grown.
  - split; [|done]. split; simpl.
    + by eapply walk_create_subseteq.
    + by eapply walk_create_files.
Qed.

Lemma chdir_effect name st (r : Py.exn + unit) st' :
  chdir name st = (r, st') → nodes st' = nodes st ∧ stdout st' = stdout st.
Proof.
  unfold chdir. destruct (resolve false name st) as [e|[ns d]];
    by intros [= _ <-].
Qed.

Lemma make_folders_effect folders st (r : Py.exn + unit) st' :
  make_folders folders st = (r, st') →
  grown st st' ∧ cwd st' = cwd st ∧ stdout st' = stdout st.
Proof.
  revert st. induction folders as [|f folders IH]; intros st; simpl.
  - by intros [= _ <-].
  - unfold mbind, M_bind.
    destruct (makedirs f st) as [[e|[]] s1] eqn:Hf.
    + intros [= _ <-]. by eapply makedirs_effect.
    + intros (G & C & O)%IH.
      apply makedirs_effect in Hf as (G1 & C1 & O1).
      split_and!; [by eapply grown_trans|congruence|congruence].
Qed.

(** The stages of [setup_project_directory], for reasoning about a call
    that may fail at any of them. *)
Lemma setup_stages (base_path : string) st :
  setup_project_directory base_path st
  = match makedirs base_path st with
    | (inl e, sa) => (inl e, sa)
    | (inr _, sa) =>
        match chdir base_path sa with
        | (inl e, sb) => (inl e, sb)
        | (inr _, sb) =>
            match make_folders
                    ["01_data"; "02_document"; "03_output"; "04_script"] sb with
            | (inl e, sc) => (inl e, sc)
            | (inr _, sc) =>
                match makedirs (path_join "01_data" "original_data") sc with
                | (inl e, sd) => (inl e, sd)
                | (inr _, sd) =>
                    let wd := render (cwd sd) in
                    let r := (wd, path_join wd "01_data",
                              path_join wd "03_output") in
                    (inr r, {| nodes := nodes sd; cwd := cwd sd;
                               stdout := (stdout sd ++ report r)%list |})
                end
            end
        end
    end.
Proof.
  unfold setup_project_directory, mbind, M_bind.
  destruct (makedirs base_path st) as [[e|[]] sa]; [done|].
  destruct (chdir base_path sa) as [[e|[]] sb]; [done|].
  destruct (make_folders _ sb) as [[e|[]] sc]; [done|].
  destruct (makedirs _ sc) as [[e|[]] sd]; [done|].
  cbv [getcwd print mret M_ret report]. simpl.
  by rewrite <- !app_assoc.
Qed.

(** X11.  [setup_project_directory] never deletes or replaces anything:
    whatever the base path and however the call ends, every directory
    and file that was there before is still there, as what it was, and
    everything new is a directory. *)
Theorem setup_only_adds_directories (base_path : string) (st : Os.state) :
  grown st (setup_project_directory base_path st).2.
Proof.
  rewrite setup_stages.
  destruct (makedirs base_path st) as [[e|[]] sa] eqn:Ha;
    apply makedirs_effect in Ha as (Ga & _ & _); [done|].
  destruct (chdir base_path sa) as [[e|[]] sb] eqn:Hb;
    apply chdir_effect in Hb as (Nb & _).
  { cbn [snd]. destruct Ga. split; by rewrite Nb. }
  assert (Gb : grown st sb) by (destruct Ga; split; by rewrite Nb).
  destruct (make_folders _ sb) as [[e|[]] sc] eqn:Hc;
    apply make_folders_effect in Hc as (Gc & _ & _).
  { by eapply grown_trans. }
  destruct (makedirs _ sc) as [[e|[]] sd] eqn:Hd;
    apply makedirs_effect in Hd as (Gd & _ & _).
  { eapply grown_trans; [|exact Gd]. by eapply grown_trans. }
  cbn [snd]. eapply grown_trans; [|exact Gd]. by eapply grown_trans.
Qed.


(** X13.  For every base path, relative or absolute: when the call
    returns, the process is in the directory [root] that the base path
    names, read from the working directory of before; the returned
    working directory is the normalised absolute path of [root] (not the
    string passed in), the input and output paths are that path joined
    with [01_data] and [03_output], and the five directories of the
    layout exist under [root]. *)
Theorem setup_postcondition (base_path : string) (st st' : Os.state)
    (r : string * string * string) :
  setup_project_directory base_path st = (inr r, st') →
  let root := Os.dest (Os.base base_path st) (Os.split "/" base_path) in
  Os.cwd st' = root
  ∧ r = (Os.render root, Os.path_join (Os.render root) "01_data",
         Os.path_join (Os.render root) "03_output")
  ∧ Os.isabs r.1.1 = true
  ∧ Forall (λ p, Os.nodes st' !! (root ++ p)%list = Some Os.Dir) layout.
Proof.
  rewrite setup_stages.
  destruct (makedirs base_path st) as [[e|[]] sa] eqn:Ha; [done|].
  destruct (chdir base_path sa) as [[e|[]] sb] eqn:Hb; [done|].
  destruct (make_folders _ sb) as [[e|[]] sc] eqn:Hc; [done|].
  destruct (makedirs _ sc) as [[e|[]] sd] eqn:Hd; [done|].
  intros [= <- <-] root.
  apply makedirs_inv in Ha as (Sa & Ca & _ & _).
  apply chdir_inv in Hb as (Nb & _ & _ & Hb).
  apply walk_dest in Hb as [Hroot Hbdir].
  rewrite (base_cwd base_path st sa Ca) in Hroot. fold root in Hroot.
  pose proof Hc as Hc'. apply make_folders_effect in Hc' as ([Sc _] & Cc & _).
  pose proof Hd as Hd'. apply makedirs_effect in Hd' as ([Sd _] & Cd & _).
  assert (Hcwd : cwd sd = root) by congruence.
  split_and!; [done|by rewrite Hcwd|reflexivity|].
  cbn [nodes]. clear Hbdir.
  apply make_folders_inv in Hc as (_ & _ & _ & Hc).
  apply makedirs_inv in Hd as (_ & _ & _ & dd & _ & Hd).
  apply walk_dest in Hd as [_ Hd].
  assert (Hin : ∀ f q, f ∈ ["01_data"; "02_document"; "03_output"; "04_script"] →
                q ∈ track (base f sb) (split "/" f) →
                nodes sd !! q = Some Dir).
  { intros f q Hf Hq.
    apply (proj1 (Forall_forall _ _) Hc) in Hf as (d & _ & Hw).
    apply walk_dest in Hw as [_ Hw]. eapply lookup_weaken; [by apply Hw|done]. }
  unfold layout. repeat apply Forall_cons_2; [..|apply Forall_nil_2].
  - apply (Hin "01_data"); [|unfold base; rewrite Hroot]; by left.
  - apply (Hin "02_document"); [right|unfold base; rewrite Hroot]; by left.
  - apply (Hin "03_output"); [right; right|unfold base; rewrite Hroot]; by left.
  - apply (Hin "04_script");
      [right; right; right|unfold base; rewrite Hroot]; by left.
  - apply Hd. unfold base. rewrite Cc, Hroot. right.
    cbn. rewrite <- app_assoc. by left.
Qed.

Lemma setup_postcondition_witness :
  ∃ st' r,
    setup_project_directory "work/../tmp//proj1/" Demo.fs = (inr r, st')
    ∧ Os.cwd st' = ["tmp"; "proj1"]
    ∧ r = ("/tmp/proj1", "/tmp/proj1/01_data", "/tmp/proj1/03_output")
    ∧ Forall (λ p, Os.nodes st' !! (["tmp"; "proj1"] ++ p)%list = Some Os.Dir)
        layout.
Proof.
  eexists _, _. split; [vm_compute; reflexivity|].
  destruct (setup_postcondition "work/../tmp//proj1/" Demo.fs _ _
              ltac:(vm_compute; reflexivity)) as (Hcwd & Hr & _ & Hdirs).
  split_and!; [exact Hcwd|exact Hr|exact Hdirs].
Defined.

(** A plain file where a folder is to be made stops [os.makedirs]. *)
Lemma makedirs_blocked name st :
  name ≠ "" → split "/" name = [name] → name ≠ "." → name ≠ ".." →
  isabs name = false →
  nodes st !! (cwd st ++ [name])%list = Some File →
  makedirs name st = (inl (Py.OSError name), st).
Proof.
  intros Hne Hs Hd Hdd Ha Hf. unfold makedirs, resolve, base.
  destruct (String.eqb_spec name ""); [done|]. rewrite Ha, Hs. simpl.
  rewrite bool_decide_eq_false_2 by (intros [?|?]; done).
  rewrite bool_decide_eq_false_2 by done. rewrite Hf. by destruct st.
Qed.

(** X14.  Nothing is rolled back.  If the base path can be created and
    [01_data] and [02_document] as well, but a plain file sits where
    [03_output] is to be made, the call raises the [OSError] of that
    folder; the working directory has already been changed to the base
    directory and stays there, [01_data] and [02_document] have been
    created and stay, and nothing is printed. *)
Theorem setup_failure_is_not_rolled_back (base_path : string) (st : Os.state) :
  let root := Os.dest (Os.base base_path st) (Os.split "/" base_path) in
  base_path ≠ "" →
  (∀ q, q ∈ Os.track (Os.base base_path st) (Os.split "/" base_path) →
        Os.nodes st !! q ≠ Some Os.File) →
  Os.nodes st !! (root ++ ["01_data"])%list ≠ Some Os.File →
  Os.nodes st !! (root ++ ["02_document"])%list ≠ Some Os.File →
  Os.nodes st !! (root ++ ["03_output"])%list = Some Os.File →
  ∃ st',
    setup_project_directory base_path st = (inl (Py.OSError "03_output"), st')
    ∧ Os.cwd st' = root
    ∧ Os.nodes st' !! (root ++ ["01_data"])%list = Some Os.Dir
    ∧ Os.nodes st' !! (root ++ ["02_document"])%list = Some Os.Dir
    ∧ Os.stdout st' = Os.stdout st.
Proof.
  intros root Hne Hfree H1 H2 H3.
  destruct (makedirs_total base_path st Hne Hfree)
    as (sa & Ea & Ca & Oa & Sa & Fa & Da & Na).
  fold root in Na. rewrite <- (base_cwd base_path st sa Ca) in Na.
  pose proof (chdir_existing _ _ _ Na) as Eb.
  set (sb := {| nodes := nodes sa; cwd := root; stdout := stdout sa |}) in Eb.
  destruct (makedirs_total "01_data" sb) as (s1 & E1 & C1 & O1 & S1 & F1 & D1 & _);
    [done|..].
  { intros q [->|[]%elem_of_nil]%elem_of_cons Hf. by apply Fa in Hf. }
  destruct (makedirs_total "02_document" s1) as (s2 & E2 & C2 & O2 & S2 & F2 & D2 & _);
    [done|..].
  { unfold base. rewrite C1.
    intros q [->|[]%elem_of_nil]%elem_of_cons Hf. by apply F1, Fa in Hf. }
  assert (E3 : makedirs "03_output" s2 = (inl (Py.OSError "03_output"), s2)).
  { apply makedirs_blocked; [done..|].
    rewrite C2, C1. eapply lookup_weaken; [|exact S2].
    eapply lookup_weaken; [|exact S1]. eapply lookup_weaken; [exact H3|exact Sa]. }
  exists s2. rewrite setup_stages, Ea, Eb. simpl. unfold mbind, M_bind.
  rewrite E1, E2, E3. split_and!; [done|by rewrite C2, C1| | |].
  3:{ by rewrite O2, O1, <- Oa. }
  - eapply lookup_weaken; [|exact S2]. apply D1. by left.
  - apply D2. unfold base. rewrite C1. by left.
Qed.
Lemma setup_failure_is_not_rolled_back_witness :
  ∃ st',
    setup_project_directory "/p" Cases.blocked
    = (inl (Py.OSError "03_output"), st')
    ∧ Os.cwd st' = ["p"]
    ∧ Os.nodes st' !! ["p"; "01_data"] = Some Os.Dir
    ∧ Os.nodes st' !! ["p"; "02_document"] = Some Os.Dir
    ∧ Os.stdout st' = [].
Proof.
  apply (setup_failure_is_not_rolled_back "/p" Cases.blocked).
  - discriminate.
  - intros q [->|[]%elem_of_nil]%elem_of_cons. by vm_compute.
  - by vm_compute.
  - by vm_compute.
  - by vm_compute.
Defined.

End scaffold_effects.
